(** * Babylon.js Farm Terrain Viewer: a model of [main.js]

    The single source file defines the class [FarmViewer].  This development
    embeds its terrain loading, spawn placement, input handling and per-frame
    movement update, and states the properties of the design document
    against that embedding.

    Conventions.
    - A JavaScript number is modelled by an exact rational ([Q]); the
      rounding of IEEE doubles, NaN and the infinities are outside the model.
      Numeric equality is [==] on [Q].  The one routine that takes a square
      root, [normalizeJoystickInput], is modelled over the reals in
      [Module Joystick], with division made partial.
    - Objects that the program shares and mutates (meshes, materials) live in
      a store and are referred to by handle (their index in the store).
    - The rendering engine (BABYLON) and the browser (fetch, Math.random) are
      not part of the repository.  Browser answers are inputs of the model;
      the few engine primitives the program calls are modelled in
      [Module BABYLON] after the engine's documented behaviour. *)

From Stdlib Require Import Reals Lra QArith Qminmax Lqa.
From stdpp Require Import gmap strings list.

(** ** Numbers *)

Definition Math_max (a b : Q) : Q := Qmax a b.
Definition Math_min (a b : Q) : Q := Qmin a b.

(** [Math.PI] is the double 0x400921FB54442D18, a dyadic rational. *)
Definition Math_PI : Q := 884279719003555 # 281474976710656.

(** [a > b], [a >= b] and [a !== 0] on numbers. *)
Definition gt (a b : Q) : bool := negb (Qle_bool a b).
Definition ge (a b : Q) : bool := Qle_bool b a.
Definition nonzero (a : Q) : bool := negb (Qeq_bool a 0).

(** ** Asset resolver: [findObjFile] *)

(** What [await fetch(url, { method: 'HEAD' })] does: it resolves to a
    response whose [ok] flag is set or not, or it throws. *)
Inductive Response : Type :=
| Resolves (ok : bool)
| Rejects.

Definition possibleNames (terrainName : string) : list string :=
  [ "terrain.obj"; terrainName +:+ ".obj"; "Geordie.obj";
    "model.obj"; "mesh.obj"; "farm.obj" ]%string.

Definition probeUrl (terrainName fileName : string) : string :=
  "./assets/" +:+ terrainName +:+ "/" +:+ fileName.

Section Resolver.

(** The network, as seen by the HEAD requests: the answer to the request
    number [k] of a run, made for a URL. *)
Variable fetch : nat -> string -> Response.

(** The [for (const fileName of possibleNames)] loop from its iteration
    number [k] on; [None] when the loop runs to its end without returning. *)
Fixpoint probeNames (terrainName : string) (k : nat) (names : list string)
  : option string :=
  match names with
  | [] => None
  | fileName :: rest =>
      match fetch k (probeUrl terrainName fileName) with
      | Resolves true => Some fileName                      (* return fileName *)
      | Resolves false => probeNames terrainName (S k) rest (* falls out of the try *)
      | Rejects => probeNames terrainName (S k) rest        (* catch: continue *)
      end
  end.

Definition findObjFile (terrainName : string) : string :=
  match probeNames terrainName 0 (possibleNames terrainName) with
  | Some fileName => fileName
  | None => terrainName +:+ ".obj"
  end.

End Resolver.

(** The probe of the candidate number [i] reports the file as existing. *)
Definition exists_at (fetch : nat -> string -> Response) (terrainName : string)
           (i : nat) : Prop :=
  exists fileName,
    possibleNames terrainName !! i = Some fileName /\
    fetch i (probeUrl terrainName fileName) = Resolves true.

(** The network in which every failing request is an ordinary negative
    answer. *)
Definition quiet (fetch : nat -> string -> Response) (k : nat) (url : string) : Response :=
  match fetch k url with
  | Rejects => Resolves false
  | r => r
  end.

(** ** Engine objects *)

Local Open Scope Q_scope.

Module Vector3.

Record t : Type := New { x : Q; y : Q; z : Q }.

Definition Zero : t := New 0 0 0.

Definition add (a b : t) : t := New (x a + x b) (y a + y b) (z a + z b).

Definition scale (a : t) (k : Q) : t := New (x a * k) (y a * k) (z a * k).

Definition lengthSquared (a : t) : Q := x a * x a + y a * y a + z a * z a.

(** [a.length() > 0].  The length is the square root of [lengthSquared],
    which is positive exactly when its argument is. *)
Definition length_gt_0 (a : t) : bool := gt (lengthSquared a) 0.

(** [a.y = v] *)
Definition set_y (v : Q) (a : t) : t := New (x a) v (z a).

(** [a.x = v] *)
Definition set_x (v : Q) (a : t) : t := New v (y a) (z a).

Definition minimize (a b : t) : t :=
  New (Math_min (x a) (x b)) (Math_min (y a) (y b)) (Math_min (z a) (z b)).

Definition maximize (a b : t) : t :=
  New (Math_max (x a) (x b)) (Math_max (y a) (y b)) (Math_max (z a) (z b)).

(** Componentwise numeric equality. *)
Definition equal (a b : t) : Prop := x a == x b /\ y a == y b /\ z a == z b.

End Vector3.

Module BABYLON.

Record BoundingBox : Type := { minimum : Vector3.t; maximum : Vector3.t }.

Record Material : Type := { materialName : string; backFaceCulling : bool }.

(** A mesh node.  [parent] and [material] are handles; [positions] is the
    vertex buffer (kind PositionKind), one entry per vertex, so that the
    slot [3k+1] of the flat array is the [y] of entry [k]. *)
Record Mesh : Type := {
  name : string;
  parent : option nat;
  checkCollisions : bool;
  material : option nat;
  positions : list Vector3.t
}.

Record Scene : Type := { meshes : list Mesh; materials : list Material }.

Definition set_parent (p : option nat) (m : Mesh) : Mesh :=
  {| name := name m; parent := p; checkCollisions := checkCollisions m;
     material := material m; positions := positions m |}.

Definition set_checkCollisions (b : bool) (m : Mesh) : Mesh :=
  {| name := name m; parent := parent m; checkCollisions := b;
     material := material m; positions := positions m |}.

Definition set_material (k : option nat) (m : Mesh) : Mesh :=
  {| name := name m; parent := parent m; checkCollisions := checkCollisions m;
     material := k; positions := positions m |}.

Definition set_positions (ps : list Vector3.t) (m : Mesh) : Mesh :=
  {| name := name m; parent := parent m; checkCollisions := checkCollisions m;
     material := material m; positions := ps |}.

Definition set_backFaceCulling (b : bool) (m : Material) : Material :=
  {| materialName := materialName m; backFaceCulling := b |}.

(** [new BABYLON.Mesh(name, scene)]: a node without geometry. *)
Definition emptyMesh (n : string) : Mesh :=
  {| name := n; parent := None; checkCollisions := false;
     material := None; positions := [] |}.

(** [new BABYLON.StandardMaterial(name, scene)]; culling is on by default. *)
Definition standardMaterial (n : string) : Material :=
  {| materialName := n; backFaceCulling := true |}.

(** The extent of a vertex buffer. *)
Definition extractMinAndMax (p : Vector3.t) (ps : list Vector3.t) : BoundingBox :=
  foldl (fun b q => {| minimum := Vector3.minimize (minimum b) q;
                       maximum := Vector3.maximize (maximum b) q |})
        {| minimum := p; maximum := p |} ps.

(** [mesh.getBoundingInfo().boundingBox].  The engine documents it as the
    shallow bounding of the mesh: the extent of the mesh's own vertices,
    children not included; a node that has no geometry gets the box
    (0,0,0)-(0,0,0). *)
Definition getBoundingInfo (m : Mesh) : BoundingBox :=
  match positions m with
  | [] => {| minimum := Vector3.Zero; maximum := Vector3.Zero |}
  | p :: ps => extractMinAndMax p ps
  end.

Definition ofNat (n : nat) : Q := inject_Z (Z.of_nat n).

(** The vertices of [MeshBuilder.CreateGround]: a flat grid of
    [(subdivisions+1)^2] vertices at height 0, centred on the origin. *)
Definition groundVertices (width height : Q) (subdivisions : nat) : list Vector3.t :=
  row ← seq 0 (S subdivisions);
  col ← seq 0 (S subdivisions);
  [ Vector3.New (ofNat col * width / ofNat subdivisions - width / 2)
                0
                (ofNat (subdivisions - row) * height / ofNat subdivisions - height / 2) ].

Definition groundMesh (n : string) (width height : Q) (subdivisions : nat) : Mesh :=
  {| name := n; parent := None; checkCollisions := false;
     material := None; positions := groundVertices width height subdivisions |}.

Inductive CameraClass : Type := ArcRotateCamera | UniversalCamera.

(** A camera object.  [radius] is the property of that name: an orbiting
    camera is built with one, a first-person camera has none until the
    program assigns it.  The position of an orbiting camera is derived by
    the engine from its angles, radius and target and is not tracked. *)
Record Camera : Type := {
  class : CameraClass;
  position : Vector3.t;
  rotation : Vector3.t;
  target : Vector3.t;
  radius : option Q
}.

Definition set_position (p : Vector3.t) (c : Camera) : Camera :=
  {| class := class c; position := p; rotation := rotation c;
     target := target c; radius := radius c |}.

Definition set_rotation (r : Vector3.t) (c : Camera) : Camera :=
  {| class := class c; position := position c; rotation := r;
     target := target c; radius := radius c |}.

Definition set_target (t : Vector3.t) (c : Camera) : Camera :=
  {| class := class c; position := position c; rotation := rotation c;
     target := t; radius := radius c |}.

Definition set_radius (r : Q) (c : Camera) : Camera :=
  {| class := class c; position := position c; rotation := rotation c;
     target := target c; radius := Some r |}.

(** Whether the property [camera.setTarget] is defined.  Both classes have
    the method: [setupFirstPersonCamera] itself calls it on the
    [UniversalCamera] it has just built. *)
Definition has_setTarget (c : Camera) : bool :=
  match class c with
  | ArcRotateCamera => true
  | UniversalCamera => true
  end.

(** [new BABYLON.UniversalCamera(name, position, scene)] *)
Definition universalCamera (p : Vector3.t) : Camera :=
  {| class := UniversalCamera; position := p; rotation := Vector3.Zero;
     target := Vector3.Zero; radius := None |}.

(** The engine's constant of that name. *)
Definition Epsilon : Q := 0.001.

Section SetTarget.

(** The rotation that makes a camera at a position look at a target
    (trigonometry of the engine). *)
Variable rotationToward : Vector3.t -> Vector3.t -> Vector3.t.

(** [camera.setTarget(t)]: an orbiting camera takes [t] as the centre of
    its orbit.  A first-person camera turns toward [t]; the engine first
    moves it by [Epsilon] along z when its z is that of [t]
    ([if (this.position.z === target.z) this.position.z += Epsilon]), and
    computes the rotation from the position it then has. *)
Definition setTarget (t : Vector3.t) (c : Camera) : Camera :=
  match class c with
  | ArcRotateCamera => set_target t c
  | UniversalCamera =>
      let p := position c in
      let p := if Qeq_bool (Vector3.z p) (Vector3.z t)
               then Vector3.New (Vector3.x p) (Vector3.y p) (Vector3.z p + Epsilon)
               else p in
      set_target t (set_rotation (rotationToward p t) (set_position p c))
  end.

End SetTarget.

End BABYLON.

(** ** The viewer object *)

Import BABYLON.

Module Stick.

(** One virtual joystick: [{ x, y, active }]. *)
Record t : Type := New { x : Q; y : Q; active : bool }.

End Stick.

Record MobileInput : Type := {
  movement : Stick.t;
  look : Stick.t;
  verticalUp : bool;
  verticalDown : bool
}.

(** The fields of [this] that the modelled methods read or write.  (The
    canvas, the engine handle, the ground plane and the unused [gravity],
    [jumpHeight] and [touchState] are left out.)  [lastTouch] is [None] when
    the property is undefined or null. *)
Record FarmViewer : Type := {
  scene : Scene;
  camera : option Camera;
  farmMesh : option nat;
  keys : gmap string bool;
  isPointerLocked : bool;
  isMobile : bool;
  mobileInput : MobileInput;
  lastTouch : option (Q * Q);
  terrainName : string;
  moveSpeed : Q;
  mouseSensitivity : Q;
  playerHeight : Q;
  verticalSpeed : Q;
  terrainMinY : Q
}.

Definition set_scene (s : Scene) (v : FarmViewer) : FarmViewer :=
  {| scene := s; camera := camera v; farmMesh := farmMesh v; keys := keys v;
     isPointerLocked := isPointerLocked v; isMobile := isMobile v;
     mobileInput := mobileInput v; lastTouch := lastTouch v;
     terrainName := terrainName v; moveSpeed := moveSpeed v;
     mouseSensitivity := mouseSensitivity v; playerHeight := playerHeight v;
     verticalSpeed := verticalSpeed v; terrainMinY := terrainMinY v |}.

Definition set_camera (c : option Camera) (v : FarmViewer) : FarmViewer :=
  {| scene := scene v; camera := c; farmMesh := farmMesh v; keys := keys v;
     isPointerLocked := isPointerLocked v; isMobile := isMobile v;
     mobileInput := mobileInput v; lastTouch := lastTouch v;
     terrainName := terrainName v; moveSpeed := moveSpeed v;
     mouseSensitivity := mouseSensitivity v; playerHeight := playerHeight v;
     verticalSpeed := verticalSpeed v; terrainMinY := terrainMinY v |}.

Definition set_farmMesh (h : option nat) (v : FarmViewer) : FarmViewer :=
  {| scene := scene v; camera := camera v; farmMesh := h; keys := keys v;
     isPointerLocked := isPointerLocked v; isMobile := isMobile v;
     mobileInput := mobileInput v; lastTouch := lastTouch v;
     terrainName := terrainName v; moveSpeed := moveSpeed v;
     mouseSensitivity := mouseSensitivity v; playerHeight := playerHeight v;
     verticalSpeed := verticalSpeed v; terrainMinY := terrainMinY v |}.

Definition set_keys (k : gmap string bool) (v : FarmViewer) : FarmViewer :=
  {| scene := scene v; camera := camera v; farmMesh := farmMesh v; keys := k;
     isPointerLocked := isPointerLocked v; isMobile := isMobile v;
     mobileInput := mobileInput v; lastTouch := lastTouch v;
     terrainName := terrainName v; moveSpeed := moveSpeed v;
     mouseSensitivity := mouseSensitivity v; playerHeight := playerHeight v;
     verticalSpeed := verticalSpeed v; terrainMinY := terrainMinY v |}.

Definition set_isPointerLocked (b : bool) (v : FarmViewer) : FarmViewer :=
  {| scene := scene v; camera := camera v; farmMesh := farmMesh v; keys := keys v;
     isPointerLocked := b; isMobile := isMobile v;
     mobileInput := mobileInput v; lastTouch := lastTouch v;
     terrainName := terrainName v; moveSpeed := moveSpeed v;
     mouseSensitivity := mouseSensitivity v; playerHeight := playerHeight v;
     verticalSpeed := verticalSpeed v; terrainMinY := terrainMinY v |}.

Definition set_mobileInput (i : MobileInput) (v : FarmViewer) : FarmViewer :=
  {| scene := scene v; camera := camera v; farmMesh := farmMesh v; keys := keys v;
     isPointerLocked := isPointerLocked v; isMobile := isMobile v;
     mobileInput := i; lastTouch := lastTouch v;
     terrainName := terrainName v; moveSpeed := moveSpeed v;
     mouseSensitivity := mouseSensitivity v; playerHeight := playerHeight v;
     verticalSpeed := verticalSpeed v; terrainMinY := terrainMinY v |}.

Definition set_lastTouch (t : option (Q * Q)) (v : FarmViewer) : FarmViewer :=
  {| scene := scene v; camera := camera v; farmMesh := farmMesh v; keys := keys v;
     isPointerLocked := isPointerLocked v; isMobile := isMobile v;
     mobileInput := mobileInput v; lastTouch := t;
     terrainName := terrainName v; moveSpeed := moveSpeed v;
     mouseSensitivity := mouseSensitivity v; playerHeight := playerHeight v;
     verticalSpeed := verticalSpeed v; terrainMinY := terrainMinY v |}.

Definition set_terrainMinY (q : Q) (v : FarmViewer) : FarmViewer :=
  {| scene := scene v; camera := camera v; farmMesh := farmMesh v; keys := keys v;
     isPointerLocked := isPointerLocked v; isMobile := isMobile v;
     mobileInput := mobileInput v; lastTouch := lastTouch v;
     terrainName := terrainName v; moveSpeed := moveSpeed v;
     mouseSensitivity := mouseSensitivity v; playerHeight := playerHeight v;
     verticalSpeed := verticalSpeed v; terrainMinY := q |}.

(** The state the constructor builds, before [init] runs; [mobile] is the
    answer of [detectMobile] and [s], [c] are the scene and the overview
    camera that [init] sets up before it loads the terrain. *)
Definition constructed (mobile : bool) (s : Scene) (c : option Camera) : FarmViewer :=
  {| scene := s; camera := c; farmMesh := None; keys := ∅;
     isPointerLocked := false; isMobile := mobile;
     mobileInput := {| movement := Stick.New 0 0 false; look := Stick.New 0 0 false;
                       verticalUp := false; verticalDown := false |};
     lastTouch := None;
     terrainName := "BlockAB"; moveSpeed := 0.08;
     mouseSensitivity := 0.002; playerHeight := 1.8;
     verticalSpeed := 0.05; terrainMinY := -5 |}.

(** ** Methods that may throw *)

(** How a statement ends: normally with a value, or by throwing. *)
Inductive Completion (A : Type) : Type :=
| Normal (a : A)
| Throw (error : string).

Arguments Normal {A} a.
Arguments Throw {A} error.

(** A method body: it runs on the viewer, changes it, and completes. *)
Definition Js (A : Type) : Type := FarmViewer -> Completion A * FarmViewer.

Definition ret {A : Type} (a : A) : Js A := fun v => (Normal a, v).

Definition bind {A B : Type} (m : Js A) (k : A -> Js B) : Js B :=
  fun v => match m v with
           | (Normal a, v') => k a v'
           | (Throw e, v') => (Throw e, v')
           end.

Definition throw {A : Type} (e : string) : Js A := fun v => (Throw e, v).

(** [try { body } catch (error) { handler }] *)
Definition try_catch {A : Type} (body : Js A) (handler : string -> Js A) : Js A :=
  fun v => match body v with
           | (Normal a, v') => (Normal a, v')
           | (Throw e, v') => handler e v'
           end.

Definition this : Js FarmViewer := fun v => (Normal v, v).

Definition assign (f : FarmViewer -> FarmViewer) : Js unit := fun v => (Normal tt, f v).

Declare Scope js_scope.
Delimit Scope js_scope with js.
Notation "'let*' x ':=' m 'in' k" := (bind m (fun x => k))
  (at level 10, x name, m at level 100, k at level 200) : js_scope.
Notation "m ';;;' k" := (bind m (fun _ => k))
  (at level 100, k at level 200, right associativity) : js_scope.

(** [list.forEach(f)] *)
Fixpoint forEach {A : Type} (l : list A) (f : A -> Js unit) : Js unit :=
  match l with
  | [] => ret tt
  | a :: rest => bind (f a) (fun _ => forEach rest f)
  end.

(** ** The scene as a store of shared objects *)

Definition with_meshes (f : list Mesh -> list Mesh) (s : Scene) : Scene :=
  {| meshes := f (meshes s); materials := materials s |}.

Definition with_materials (f : list Material -> list Material) (s : Scene) : Scene :=
  {| meshes := meshes s; materials := f (materials s) |}.

(** A constructor of the engine that registers a new mesh in [this.scene]
    and returns the handle of it. *)
Definition addMesh (m : Mesh) : Js nat :=
  fun v => (Normal (length (meshes (scene v))),
            set_scene (with_meshes (fun l => l ++ [m]) (scene v)) v).

Definition addMaterial (m : Material) : Js nat :=
  fun v => (Normal (length (materials (scene v))),
            set_scene (with_materials (fun l => l ++ [m]) (scene v)) v).

(** Reading through a handle; a handle that denotes nothing is a TypeError. *)
Definition readMesh (h : nat) : Js Mesh :=
  fun v => match meshes (scene v) !! h with
           | Some m => (Normal m, v)
           | None => (Throw "TypeError", v)
           end.

(** Assigning a property of the object behind a handle. *)
Definition writeMesh (h : nat) (f : Mesh -> Mesh) : Js unit :=
  assign (fun v => set_scene (with_meshes (alter f h) (scene v)) v).

Definition writeMaterial (k : nat) (f : Material -> Material) : Js unit :=
  assign (fun v => set_scene (with_materials (alter f k) (scene v)) v).

(** ** Terrain loader: [loadTerrain] and [createPlaceholderTerrain] *)

(** What [BABYLON.SceneLoader.ImportMeshAsync] does with a file: the promise
    is rejected, or it resolves after the file's materials and meshes have
    been added to the scene.  A mesh names its material by handle. *)
Inductive ImportOutcome : Type :=
| ImportRejected (error : string)
| ImportResolved (newMaterials : list Material) (newMeshes : list Mesh).

Section Loader.

Local Open Scope js_scope.

(** The network as seen by the HEAD requests. *)
Variable fetch : nat -> string -> Response.

(** The importer: the outcome for a directory and a file name. *)
Variable importMesh : string -> string -> ImportOutcome.

(** [Math.random()]: the draw made for the k-th vertex. *)
Variable Math_random : nat -> Q.

(** [result.meshes] holds the handles of the new meshes, in file order. *)
Definition ImportMeshAsync (rootUrl fileName : string) : Js (list nat) :=
  match importMesh rootUrl fileName with
  | ImportRejected e => throw e
  | ImportResolved newMaterials newMeshes =>
      fun v =>
        (Normal (seq (length (meshes (scene v))) (length newMeshes)),
         set_scene {| meshes := meshes (scene v) ++ newMeshes;
                      materials := materials (scene v) ++ newMaterials |} v)
  end.

(** The loop [for (let i = 1; i < positions.length; i += 3)
    positions[i] = Math.random() * 3]: the y of every vertex is redrawn. *)
Definition randomHeights (positions : list Vector3.t) : list Vector3.t :=
  imap (fun k p => Vector3.set_y (Math_random k * 3) p) positions.

(** The callback of the first [result.meshes.forEach]. *)
Definition attachTo (terrainParent : nat) (mesh : nat) : Js unit :=
  writeMesh mesh (set_parent (Some terrainParent)).

(** The callback of the second [result.meshes.forEach]. *)
Definition processMesh (mesh : nat) : Js unit :=
  writeMesh mesh (set_checkCollisions true) ;;;
  let* m := readMesh mesh in
  match material m with
  | Some k => writeMaterial k (set_backFaceCulling false)
  | None => ret tt
  end.

Definition createPlaceholderTerrain : Js unit :=
  let* ground := addMesh (groundMesh "placeholderTerrain" 30 30 8) in
  assign (set_farmMesh (Some ground)) ;;;
  let* mesh := readMesh ground in
  let positions := randomHeights (positions mesh) in
  writeMesh ground (set_positions positions) ;;;
  let* material := addMaterial (standardMaterial "placeholderMaterial") in
  writeMesh ground (set_material (Some material)) ;;;
  writeMesh ground (set_checkCollisions true).

(** The statements of [loadTerrain] inside [try]. *)
Definition loadTerrain_try : Js unit :=
  let* v := this in
  let objFileName := findObjFile fetch (terrainName v) in
  if String.eqb objFileName EmptyString then
    throw ("No .obj file found in " +:+ terrainName v +:+ " directory")
  else
    let* result := ImportMeshAsync ("./assets/" +:+ terrainName v +:+ "/") objFileName in
    if (0 <? length result)%nat then
      match result with
      | [mesh] => assign (set_farmMesh (Some mesh))
      | _ =>
          let* terrainParent := addMesh (emptyMesh "terrainParent") in
          assign (set_farmMesh (Some terrainParent)) ;;;
          forEach result (attachTo terrainParent)
      end ;;;
      let* v1 := this in
      match farmMesh v1 with
      | None => throw "TypeError"
      | Some entity =>
          let* mesh := readMesh entity in
          let boundingBox := getBoundingInfo mesh in
          assign (set_terrainMinY (Vector3.y (minimum boundingBox) - 1))
      end ;;;
      forEach result processMesh
    else
      throw ("No meshes found in " +:+ terrainName v +:+ ".obj").

Definition loadTerrain : Js unit :=
  try_catch loadTerrain_try (fun error => createPlaceholderTerrain).

End Loader.

(** ** Vocabulary for the state the loader leaves *)

(** What the importer answers for the file that the resolver picks. *)
Definition imported (fetch : nat -> string -> Response)
           (importMesh : string -> string -> ImportOutcome) (v : FarmViewer)
  : ImportOutcome :=
  importMesh ("./assets/" +:+ terrainName v +:+ "/") (findObjFile fetch (terrainName v)).

(** The mesh behind handle [h] takes part in collisions. *)
Definition collides (s : Scene) (h : nat) : bool :=
  from_option checkCollisions false (meshes s !! h).

(** The mesh behind handle [h] is a child of the node [entity]. *)
Definition child_of (s : Scene) (entity h : nat) : bool :=
  from_option (fun m => bool_decide (parent m = Some entity)) false (meshes s !! h).

(** The mesh behind handle [h] exists and, when it carries a material,
    back-face culling is off in that material. *)
Definition culling_off (s : Scene) (h : nat) : bool :=
  match meshes s !! h with
  | Some m =>
      match material m with
      | Some k => from_option (fun mat => negb (backFaceCulling mat)) true (materials s !! k)
      | None => true
      end
  | None => false
  end.

(** The bounding box the engine reports for the node behind [h]. *)
Definition boundingBoxOf (s : Scene) (h : nat) : option BoundingBox :=
  getBoundingInfo <$> meshes s !! h.

(** The smallest box that holds two boxes, and the box that holds the boxes
    of all the listed meshes. *)
Definition unionBox (a b : BoundingBox) : BoundingBox :=
  {| minimum := Vector3.minimize (minimum a) (minimum b);
     maximum := Vector3.maximize (maximum a) (maximum b) |}.

Definition combinedBox (s : Scene) (hs : list nat) : option BoundingBox :=
  match hs with
  | [] => None
  | h :: rest =>
      foldl (fun acc h' => b ← acc; b' ← boundingBoxOf s h'; Some (unionBox b b'))
            (boundingBoxOf s h) rest
  end.

(** Some listed mesh names the material [k]. *)
Definition names_material (s : Scene) (hs : list nat) (k : nat) : bool :=
  existsb (fun h => from_option (fun m => bool_decide (material m = Some k)) false
                                (meshes s !! h)) hs.

(** ** Spawn placement: [setupFirstPersonCamera], [positionCameraForTerrain] *)

(** [center] and [size] of a bounding box, as [positionCameraForTerrain]
    computes them. *)
Definition boxCenter (b : BoundingBox) : Vector3.t :=
  let min := minimum b in
  let max := maximum b in
  Vector3.New ((Vector3.x min + Vector3.x max) / 2)
              ((Vector3.y min + Vector3.y max) / 2)
              ((Vector3.z min + Vector3.z max) / 2).

Definition boxSize (b : BoundingBox) : Vector3.t :=
  let min := minimum b in
  let max := maximum b in
  Vector3.New (Vector3.x max - Vector3.x min)
              (Vector3.y max - Vector3.y min)
              (Vector3.z max - Vector3.z min).

(** The vector built in the [else] branch of [positionCameraForTerrain]. *)
Definition firstPersonSpawn (b : BoundingBox) (playerHeight : Q) : Vector3.t :=
  let center := boxCenter b in
  let size := boxSize b in
  let max := maximum b in
  Vector3.New (Vector3.x center)
              (Math_max (Vector3.y center + playerHeight) (Vector3.y max + playerHeight))
              (Vector3.z center + Math_max (Vector3.z size * 0.4) 10).

Section Spawn.

Local Open Scope js_scope.

Variable rotationToward : Vector3.t -> Vector3.t -> Vector3.t.

(** Of the properties that [setupFirstPersonCamera] assigns, only the
    position and the target are modelled ([minZ], [speed], the collision
    ellipsoid and the gravity flag play no part in what follows). *)
Definition setupFirstPersonCamera : Js unit :=
  let* v := this in
  match camera v with
  | None => throw "TypeError"                       (* this.camera.dispose() *)
  | Some _ =>
      let c := universalCamera (Vector3.New 0 (playerHeight v) 10) in
      assign (set_camera (Some c)) ;;;
      assign (set_camera (Some (setTarget rotationToward Vector3.Zero c)))
  end.

Definition positionCameraForTerrain : Js unit :=
  let* v := this in
  match farmMesh v with
  | None => ret tt                                   (* if (!this.farmMesh) return *)
  | Some entity =>
      let* mesh := readMesh entity in
      let boundingBox := getBoundingInfo mesh in
      let center := boxCenter boundingBox in
      let size := boxSize boundingBox in
      match camera v with
      | None => throw "TypeError"
      | Some c =>
          if has_setTarget c then
            let c1 := setTarget rotationToward center c in
            let c2 := set_radius (Math_max (Vector3.x size) (Vector3.z size) * 1.5) c1 in
            assign (set_camera (Some c2))
          else
            assign (set_camera
                      (Some (set_position (firstPersonSpawn boundingBox (playerHeight v)) c)))
      end
  end.

End Spawn.

(** ** Startup: [init]

    The steps of [init] from the terrain load to the placement of the
    first-person camera.  The steps before them (scene, overview camera,
    lights, ground plane) are taken as done in the state [init] starts from,
    and the steps after them (listeners, render loop, loading screen) change
    neither the terrain nor the camera.  The [catch] shows an error
    message. *)
Section Init.

Local Open Scope js_scope.

Variable fetch : nat -> string -> Response.
Variable importMesh : string -> string -> ImportOutcome.
Variable Math_random : nat -> Q.
Variable rotationToward : Vector3.t -> Vector3.t -> Vector3.t.

Definition init : Js unit :=
  try_catch
    (loadTerrain fetch importMesh Math_random ;;;
     setupFirstPersonCamera rotationToward ;;;
     positionCameraForTerrain rotationToward)
    (fun error => ret tt).

End Init.

(** The camera of [createInitialCamera]. *)
Definition overviewCamera : Camera :=
  {| class := ArcRotateCamera; position := Vector3.Zero; rotation := Vector3.Zero;
     target := Vector3.Zero; radius := Some 50 |}.

(** ** Per-frame update: [updateMovement] *)

(** Truthiness of [this.keys[k]]. *)
Definition held (v : FarmViewer) (k : string) : bool := default false (keys v !! k).

(** The W/A/S/D block and the movement-joystick block: the vector
    [movement] when the vertical block is reached. *)
Definition horizontalMovement (forward right : Vector3.t) (v : FarmViewer) : Vector3.t :=
  let joystick := movement (mobileInput v) in      (* this.mobileInput.movement *)
  let movement := Vector3.Zero in
  let movement :=
    if held v "w" then Vector3.add movement (Vector3.scale forward (moveSpeed v))
    else movement in
  let movement :=
    if held v "s" then Vector3.add movement (Vector3.scale forward (- moveSpeed v))
    else movement in
  let movement :=
    if held v "a" then Vector3.add movement (Vector3.scale right (- moveSpeed v))
    else movement in
  let movement :=
    if held v "d" then Vector3.add movement (Vector3.scale right (moveSpeed v))
    else movement in
  if isMobile v && Stick.active joystick then
    let mobileMovement :=
      Vector3.add
        (Vector3.scale forward (Stick.y joystick * moveSpeed v))
        (Vector3.scale right (Stick.x joystick * moveSpeed v)) in
    Vector3.add movement mobileMovement
  else movement.

(** The [if (this.keys['q']) ... else if (...)] statement, as the change it
    makes to [verticalMovement]. *)
Definition flyDown (v : FarmViewer) (verticalMovement : Q) : Q :=
  if held v "q" then verticalMovement - verticalSpeed v
  else if isMobile v && verticalDown (mobileInput v)
       then verticalMovement - verticalSpeed v * 0.5
       else verticalMovement.

(** The [if (this.keys['e']) ... else if (...)] statement. *)
Definition flyUp (v : FarmViewer) (verticalMovement : Q) : Q :=
  if held v "e" then verticalMovement + verticalSpeed v
  else if isMobile v && verticalUp (mobileInput v)
       then verticalMovement + verticalSpeed v * 0.5
       else verticalMovement.

Definition verticalMovement (v : FarmViewer) : Q := flyUp v (flyDown v 0).

(** [if (movement.length() > 0) { movement.y = 0; position = position.add(movement) }] *)
Definition applyHorizontal (movement : Vector3.t) (c : Camera) : Camera :=
  if Vector3.length_gt_0 movement then
    let movement := Vector3.set_y 0 movement in
    set_position (Vector3.add (position c) movement) c
  else c.

(** [if (verticalMovement !== 0) { ... }] with the floor test. *)
Definition applyVertical (v : FarmViewer) (verticalMovement : Q) (c : Camera) : Camera :=
  if nonzero verticalMovement then
    let newY := Vector3.y (position c) + verticalMovement in
    if ge newY (terrainMinY v + playerHeight v) then
      set_position (Vector3.set_y newY (position c)) c
    else
      set_position (Vector3.set_y (terrainMinY v + playerHeight v) (position c)) c
  else c.

(** [forward] and [right] are what [camera.getDirection] returns for the
    two axes. *)
Definition updateMovement (forward right : Vector3.t) (v : FarmViewer) : FarmViewer :=
  match camera v with
  | None => v
  | Some c =>
      let movement := horizontalMovement forward right v in
      let verticalMovement := verticalMovement v in
      let c := applyHorizontal movement c in
      let c := applyVertical v verticalMovement c in
      set_camera (Some c) v
  end.

(** ** Look handlers *)

(** [Math.max(-Math.PI / 2, Math.min(Math.PI / 2, rx))]: the statement that
    ends each of the three handlers that write [camera.rotation.x]. *)
Definition clampPitch (rx : Q) : Q :=
  Math_max ((- Math_PI) / 2) (Math_min (Math_PI / 2) rx).

(** [rotation.y += dy; rotation.x += dx; rotation.x = clamp(rotation.x)] *)
Definition turn (dy dx : Q) (c : Camera) : Camera :=
  let r := rotation c in
  let r := Vector3.set_y (Vector3.y r + dy) r in
  let r := Vector3.set_x (Vector3.x r + dx) r in
  let r := Vector3.set_x (clampPitch (Vector3.x r)) r in
  set_rotation r c.

(** The listener of "mousemove". *)
Definition onMouseMove (movementX movementY : Q) (v : FarmViewer) : FarmViewer :=
  match camera v with
  | Some c =>
      if isPointerLocked v then
        set_camera (Some (turn (movementX * mouseSensitivity v)
                               (movementY * mouseSensitivity v) c)) v
      else v
  | None => v
  end.

Definition updateMobileCameraRotation (v : FarmViewer) : FarmViewer :=
  match camera v with
  | Some c =>
      if negb (isMobile v) then v
      else if Stick.active (look (mobileInput v)) then
        let lookSensitivity := mouseSensitivity v * 2 in
        set_camera (Some (turn (Stick.x (look (mobileInput v)) * lookSensitivity)
                               (- (Stick.y (look (mobileInput v)) * lookSensitivity)) c)) v
      else v
  | None => v
  end.

(** [touches] are the [(clientX, clientY)] of [e.touches]. *)
Definition handleCanvasTouchMove (touches : list (Q * Q)) (v : FarmViewer) : FarmViewer :=
  match touches with
  | [touch] =>
      if negb (Stick.active (look (mobileInput v))) then
        let v1 :=
          match lastTouch v with
          | Some last =>
              let deltaX := fst touch - fst last in
              let deltaY := snd touch - snd last in
              match camera v with
              | Some c =>
                  set_camera (Some (turn (deltaX * mouseSensitivity v * 0.5)
                                         (deltaY * mouseSensitivity v * 0.5) c)) v
              | None => v
              end
          | None => v
          end in
        set_lastTouch (Some touch) v1
      else v
  | _ => v
  end.

Definition handleCanvasTouchEnd (v : FarmViewer) : FarmViewer := set_lastTouch None v.

(** ** The other input handlers *)

Inductive JoystickType : Type := MovementStick | LookStick.

Definition stick (t : JoystickType) (i : MobileInput) : Stick.t :=
  match t with
  | MovementStick => movement i
  | LookStick => look i
  end.

(** [this.mobileInput[type] = s] *)
Definition set_stick (t : JoystickType) (s : Stick.t) (i : MobileInput) : MobileInput :=
  match t with
  | MovementStick =>
      {| movement := s; look := look i;
         verticalUp := verticalUp i; verticalDown := verticalDown i |}
  | LookStick =>
      {| movement := movement i; look := s;
         verticalUp := verticalUp i; verticalDown := verticalDown i |}
  end.

Definition set_verticalUp (b : bool) (i : MobileInput) : MobileInput :=
  {| movement := movement i; look := look i;
     verticalUp := b; verticalDown := verticalDown i |}.

Definition set_verticalDown (b : bool) (i : MobileInput) : MobileInput :=
  {| movement := movement i; look := look i;
     verticalUp := verticalUp i; verticalDown := b |}.

(** The three closures of [setupJoystick].  Their variable [isDragging] and
    the flag [active] of the joystick are written together and start equal,
    so [handleMove] is guarded by [active]; [nx], [ny] are the components of
    the value that [normalizeJoystickInput] returned. *)
Definition handleStart (t : JoystickType) (v : FarmViewer) : FarmViewer :=
  let s := stick t (mobileInput v) in
  set_mobileInput (set_stick t (Stick.New (Stick.x s) (Stick.y s) true) (mobileInput v)) v.

Definition handleMove (t : JoystickType) (nx ny : Q) (v : FarmViewer) : FarmViewer :=
  let s := stick t (mobileInput v) in
  if Stick.active s then
    set_mobileInput (set_stick t (Stick.New nx (- ny) (Stick.active s)) (mobileInput v)) v
  else v.

Definition handleEnd (t : JoystickType) (v : FarmViewer) : FarmViewer :=
  set_mobileInput (set_stick t (Stick.New 0 0 false) (mobileInput v)) v.

(** What the browser delivers between two statements of the program.
    [KeyDown] and [KeyUp] carry [event.key.toLowerCase()]; [RenderFrame]
    carries the two directions the engine computes for the frame. *)
Inductive Event : Type :=
| KeyDown (key : string)
| KeyUp (key : string)
| PointerLockChange (locked : bool)
| MouseMove (movementX movementY : Q)
| JoystickStart (t : JoystickType)
| JoystickMove (t : JoystickType) (nx ny : Q)
| JoystickEnd (t : JoystickType)
| UpButton (pressed : bool)
| DownButton (pressed : bool)
| CanvasTouchMove (touches : list (Q * Q))
| CanvasTouchEnd
| RenderFrame (forward right : Vector3.t).

(** The listeners that [setupControls] installs.  The touch listeners are
    installed only on a mobile device. *)
Definition dispatch (e : Event) (v : FarmViewer) : FarmViewer :=
  match e with
  | KeyDown key => set_keys (<[key := true]> (keys v)) v
  | KeyUp key => set_keys (<[key := false]> (keys v)) v
  | PointerLockChange locked => set_isPointerLocked locked v
  | MouseMove movementX movementY => onMouseMove movementX movementY v
  | RenderFrame f r => updateMobileCameraRotation (updateMovement f r v)
  | _ =>
      if isMobile v then
        match e with
        | JoystickStart t => handleStart t v
        | JoystickMove t nx ny => handleMove t nx ny v
        | JoystickEnd t => handleEnd t v
        | UpButton pressed => set_mobileInput (set_verticalUp pressed (mobileInput v)) v
        | DownButton pressed => set_mobileInput (set_verticalDown pressed (mobileInput v)) v
        | CanvasTouchMove touches => handleCanvasTouchMove touches v
        | CanvasTouchEnd => handleCanvasTouchEnd v
        | _ => v
        end
      else v
  end.

(** The viewer after a sequence of events. *)
Definition run (events : list Event) (v : FarmViewer) : FarmViewer :=
  foldl (fun v e => dispatch e v) v events.




Definition Qsum (l : list Q) : Q := foldr Qplus 0 l.

(** A pitch between -PI/2 and PI/2. *)
Definition in_range (p : Q) : Prop := (- Math_PI) / 2 <= p /\ p <= Math_PI / 2.


(** ** Joystick normalisation: [normalizeJoystickInput]

    The routine takes a square root, so it is modelled over the reals.  A
    division whose divisor is 0 gives NaN or an infinity in JavaScript; the
    model returns [None] there (the result has a component that is not a
    real number). *)

Module Joystick.

Local Open Scope R_scope.

Record Normalized : Type := { x : R; y : R; distance : R }.

Definition div (a b : R) : option R :=
  if Req_dec_T b 0 then None else Some (a / b).

Definition normalizeJoystickInput (x y centerX centerY maxDistance : R)
  : option Normalized :=
  let deltaX := x - centerX in
  let deltaY := y - centerY in
  let distance := sqrt (deltaX * deltaX + deltaY * deltaY) in
  if Rlt_dec maxDistance distance then
    ux ← div deltaX distance;
    uy ← div deltaY distance;
    k ← div maxDistance maxDistance;
    Some {| x := ux * k; y := uy * k; distance := maxDistance |}
  else
    nx ← div deltaX maxDistance;
    ny ← div deltaY maxDistance;
    Some {| x := nx; y := ny; distance := distance |}.

(** The length of the reported vector. *)
Definition magnitude (n : Normalized) : R := sqrt (x n * x n + y n * y n).

End Joystick.


(** ** Sample inputs *)

Definition emptyScene : Scene := {| meshes := []; materials := [] |}.

(** A mesh of two vertices, spanning the heights [lo] to [hi]. *)
Definition slab (n : string) (mat : option nat) (lo hi : Q) : Mesh :=
  {| name := n; parent := None; checkCollisions := false; material := mat;
     positions := [ Vector3.New 0 lo 0; Vector3.New 40 hi 40 ] |}.

(** A file of three meshes, two of which share one material. *)
Definition threeParts : string -> string -> ImportOutcome :=
  fun _ _ =>
    ImportResolved [ standardMaterial "soil" ]
                   [ slab "hill" (Some 0%nat) (-10) 0;
                     slab "pond" None (-3) 2;
                     slab "barn" (Some 0%nat) 0 5 ].

(** A file of one mesh. *)
Definition onePart : string -> string -> ImportOutcome :=
  fun _ _ => ImportResolved [ standardMaterial "soil" ] [ slab "field" (Some 0%nat) (-2) 5 ].

(** No file can be imported. *)
Definition missingFile : string -> string -> ImportOutcome :=
  fun _ _ => ImportRejected "404".

Definition online : nat -> string -> Response := fun _ _ => Resolves true.

Definition offline : nat -> string -> Response := fun _ _ => Rejects.

(** Every random draw is one half. *)
Definition evenDraws : nat -> Q := fun _ => 1 # 2.

(** A viewer whose floor is at -6, whose camera stands on the lowest
    allowed height, -4.2, and whose "q" key is held. *)
Definition atFloor : FarmViewer :=
  set_keys (<["q" := true]> ∅)
    (set_terrainMinY (-6)
       (constructed false emptyScene (Some (universalCamera (Vector3.New 0 (-4.2) 0))))).

(** A desktop viewer with a level first-person camera, and a pointer that
    is locked and then dragged down twice by 500 pixels. *)
Definition levelViewer : FarmViewer :=
  constructed false emptyScene (Some (universalCamera (Vector3.New 0 1.8 10))).


(** ** Further vocabulary *)

(** The state of a key as a number: 1 when held, 0 when not. *)
Definition pressed (v : FarmViewer) (k : string) : Q := if held v k then 1 else 0.

(** What the movement joystick adds to an axis: its reading while the
    device is mobile and the joystick is dragged, and 0 otherwise. *)
Definition joystickAxis (v : FarmViewer) (reading : Stick.t -> Q) : Q :=
  if isMobile v && Stick.active (movement (mobileInput v))
  then reading (movement (mobileInput v)) else 0.

(** The number of steps taken along [forward] and along [right] in a frame:
    "w" minus "s" plus the joystick's y, and "d" minus "a" plus its x. *)
Definition forwardSteps (v : FarmViewer) : Q :=
  pressed v "w" - pressed v "s" + joystickAxis v Stick.y.

Definition rightSteps (v : FarmViewer) : Q :=
  pressed v "d" - pressed v "a" + joystickAxis v Stick.x.

(** The last thing a sequence of events says about a key: [Some true] when
    its last event for the key is a keydown, [Some false] when it is a
    keyup, [None] when the sequence has no event for the key. *)
Fixpoint lastKey (k : string) (events : list Event) : option bool :=
  match events with
  | [] => None
  | e :: rest =>
      match lastKey k rest with
      | Some b => Some b
      | None =>
          match e with
          | KeyDown key => if String.eqb key k then Some true else None
          | KeyUp key => if String.eqb key k then Some false else None
          | _ => None
          end
      end
  end.

(** The yaw of the camera, when there is one. *)
Definition yaw (v : FarmViewer) : option Q :=
  (fun c => Vector3.y (rotation c)) <$> camera v.

(** The amount an event adds to the yaw: the argument of the [+=] on
    [rotation.y] when the handler gets to it, and 0 when it does not. *)
Definition yawDelta (e : Event) (v : FarmViewer) : Q :=
  match e with
  | MouseMove movementX _ =>
      if isPointerLocked v then movementX * mouseSensitivity v else 0
  | RenderFrame _ _ =>
      if isMobile v && Stick.active (look (mobileInput v))
      then Stick.x (look (mobileInput v)) * (mouseSensitivity v * 2)
      else 0
  | CanvasTouchMove [touch] =>
      if isMobile v && negb (Stick.active (look (mobileInput v))) then
        match lastTouch v with
        | Some last => (fst touch - fst last) * mouseSensitivity v * 0.5
        | None => 0
        end
      else 0
  | _ => 0
  end.

Fixpoint yawDeltas (events : list Event) (v : FarmViewer) : list Q :=
  match events with
  | [] => []
  | e :: rest => yawDelta e v :: yawDeltas rest (dispatch e v)
  end.

(** A joystick that is not dragged reads (0, 0). *)
Definition at_rest (s : Stick.t) : Prop :=
  Stick.active s = false -> Stick.x s = 0 /\ Stick.y s = 0.

(** The knob of a joystick, as [handleMove] places it: [knob.style.left] and
    [knob.style.top], in pixels, for a value of [normalizeJoystickInput]. *)
Definition knobPosition (centerX centerY maxDistance : R) (n : Joystick.Normalized)
  : R * R :=
  ((centerX + Joystick.x n * maxDistance)%R,
   (centerY + (- Joystick.y n) * maxDistance)%R).

(** The geometry that [setupJoystick] reads off the joystick element, from
    the width and the height of its rectangle in pixels. *)
Module JoystickElement.

Definition centerX (width : R) : R := (width / 2)%R.

Definition centerY (height : R) : R := (height / 2)%R.

Definition maxDistance (width : R) : R := (width / 2 - 20)%R.

End JoystickElement.

(** More sample inputs: a mobile viewer with a level camera; a viewer with
    "w", "s", "q" and "e" all held; a viewer whose camera is below the floor
    line while "q" is held. *)
Definition mobileViewer : FarmViewer :=
  constructed true emptyScene (Some (universalCamera (Vector3.New 0 1.8 10))).

Definition allKeys : FarmViewer :=
  set_keys (<["w" := true]> (<["s" := true]> (<["q" := true]> (<["e" := true]> ∅))))
           levelViewer.

Definition belowFloor : FarmViewer :=
  set_keys (<["q" := true]> ∅)
    (set_terrainMinY (-6)
       (constructed false emptyScene (Some (universalCamera (Vector3.New 0 (-9) 0))))).

(** A scene that holds one terrain mesh, and a viewer that has it loaded
    and looks at it through the overview camera. *)
Definition fieldScene : Scene :=
  {| meshes := [ slab "field" None (-2) 5 ]; materials := [] |}.

Definition loadedViewer : FarmViewer :=
  set_farmMesh (Some 0%nat) (constructed false fieldScene (Some overviewCamera)).

(** The same terrain seen by a first-person camera that stands at the z of
    the centre of the terrain box, 20. *)
Definition walkingViewer : FarmViewer :=
  set_farmMesh (Some 0%nat)
    (constructed false fieldScene (Some (universalCamera (Vector3.New 0 1.8 20)))).
(** * Properties *)

(** ** Asset resolver *)

Lemma append_obj_nonempty (terrainName : string) : terrainName +:+ ".obj" <> EmptyString.
Proof. destruct terrainName; discriminate. Qed.

Lemma possibleNames_nonempty (terrainName fileName : string) :
  fileName ∈ possibleNames terrainName -> fileName <> EmptyString.
Proof.
  unfold possibleNames. rewrite !elem_of_cons, elem_of_nil.
  intros [-> | [-> | [-> | [-> | [-> | [-> | []]]]]]];
    try discriminate; apply append_obj_nonempty.
Qed.

(** The loop, started at iteration [k], returns the first name whose probe
    answers ok, and runs to its end only when no probe does. *)
Lemma probeNames_spec (fetch : nat -> string -> Response) (terrainName : string)
      (names : list string) (k : nat) :
  match probeNames fetch terrainName k names with
  | Some fileName =>
      exists j,
        names !! j = Some fileName /\
        fetch (k + j)%nat (probeUrl terrainName fileName) = Resolves true /\
        forall i n, (i < j)%nat -> names !! i = Some n ->
                    fetch (k + i)%nat (probeUrl terrainName n) <> Resolves true
  | None =>
      forall i n, names !! i = Some n ->
                  fetch (k + i)%nat (probeUrl terrainName n) <> Resolves true
  end.
Proof.
  revert k. induction names as [|n rest IH]; intros k; cbn [probeNames].
  - intros i n H. discriminate H.
  - assert (Hhere : fetch k (probeUrl terrainName n) <> Resolves true ->
                    forall m, (n :: rest) !! 0%nat = Some m ->
                              fetch (k + 0)%nat (probeUrl terrainName m) <> Resolves true).
    { intros Hn m [= <-]. rewrite Nat.add_0_r. exact Hn. }
    destruct (fetch k (probeUrl terrainName n)) as [[|]|] eqn:E.
    1: { exists 0%nat. rewrite Nat.add_0_r. repeat split; auto. intros i m Hi. lia. }
    all: specialize (IH (S k));
      destruct (probeNames fetch terrainName (S k) rest) as [f|];
      [ destruct IH as (j & Hj & Hok & Hbefore); exists (S j);
        rewrite Nat.add_succ_r; repeat split; auto;
        intros [|i] m Hi Hm;
        [ apply Hhere; [discriminate|exact Hm]
        | rewrite Nat.add_succ_r; apply (Hbefore i m); [lia|exact Hm] ]
      | intros [|i] m Hm;
        [ apply Hhere; [discriminate|exact Hm]
        | rewrite Nat.add_succ_r; apply (IH i m Hm) ] ].
Qed.

(** A request that throws and a request that answers "not ok" are handled
    alike. *)
Lemma probeNames_quiet (fetch : nat -> string -> Response) (terrainName : string)
      (names : list string) (k : nat) :
  probeNames (quiet fetch) terrainName k names = probeNames fetch terrainName k names.
Proof.
  revert k. induction names as [|n rest IH]; intros k; cbn [probeNames]; [reflexivity|].
  unfold quiet at 1. destruct (fetch k (probeUrl terrainName n)) as [[|]|]; auto.
Qed.

(** C4.  For every terrain name and every behaviour of the probes,
    [findObjFile] returns a non-empty file name; it is the first candidate,
    in the fixed order of [possibleNames], whose probe reports the file as
    existing, all earlier probes having failed, or else, when no probe
    succeeds, the default "<terrainName>.obj"; and a probe that throws is
    treated like one that reports non-existence. *)
Theorem findObjFile_total_first_found (fetch : nat -> string -> Response)
        (terrainName : string) :
  let fileName := findObjFile fetch terrainName in
  fileName <> EmptyString /\
  ((exists j,
       possibleNames terrainName !! j = Some fileName /\
       exists_at fetch terrainName j /\
       forall i, (i < j)%nat -> ~ exists_at fetch terrainName i)
   \/
   ((forall i, ~ exists_at fetch terrainName i) /\
    fileName = terrainName +:+ ".obj")) /\
  findObjFile (quiet fetch) terrainName = fileName /\
  possibleNames terrainName =
    [ "terrain.obj"; terrainName +:+ ".obj"; "Geordie.obj";
      "model.obj"; "mesh.obj"; "farm.obj" ]%string.
Proof.
  unfold findObjFile. rewrite probeNames_quiet.
  pose proof (probeNames_spec fetch terrainName (possibleNames terrainName) 0) as H.
  destruct (probeNames fetch terrainName 0 (possibleNames terrainName)) as [f|]; cbn zeta.
  - destruct H as (j & Hj & Hok & Hbefore).
    split; [|split; [|split]]; auto.
    + apply (possibleNames_nonempty terrainName). apply list_elem_of_lookup. eauto.
    + left. exists j. split; [exact Hj|]. split; [exists f; auto|].
      intros i Hi (n & Hn & Hfetch). exact (Hbefore i n Hi Hn Hfetch).
  - split; [|split; [|split]]; auto; [apply append_obj_nonempty|].
    right. split; [|reflexivity].
    intros i (n & Hn & Hfetch). exact (H i n Hn Hfetch).
Qed.

(** Two runs of the resolver: the legacy name is found behind a failing
    request, and nothing is found at all. *)
Example findObjFile_legacy :
  findObjFile (fun k url => if String.eqb url "./assets/BlockAB/Geordie.obj"
                            then Resolves true
                            else if (k =? 0)%nat then Rejects else Resolves false)
              "BlockAB"
  = "Geordie.obj"%string.
Proof. reflexivity. Qed.

Example findObjFile_nothing :
  findObjFile offline "BlockXB" = "BlockXB.obj"%string.
Proof. reflexivity. Qed.

(** When the terrain is itself called "terrain", the first two candidates
    are the same file; each is probed by a request of its own. *)
Example findObjFile_second_request :
  findObjFile (fun k _ => if (k =? 1)%nat then Resolves true else Rejects) "terrain"
  = "terrain.obj"%string.
Proof. reflexivity. Qed.

(** ** Terrain loader *)

(** A loop of property assignments through handles: each listed mesh is
    changed by [f], once, and nothing else is. *)
Lemma forEach_writeMesh (f : Mesh -> Mesh) (hs : list nat) (v : FarmViewer) :
  (forall m, f (f m) = f m) ->
  exists l',
    forEach hs (fun h => writeMesh h f) v
      = (Normal tt, set_scene {| meshes := l'; materials := materials (scene v) |} v) /\
    forall i, l' !! i = (if bool_decide (i ∈ hs) then f else fun m => m) <$> meshes (scene v) !! i.
Proof.
  intros Hf. revert v. induction hs as [|h hs IH]; intros v.
  - exists (meshes (scene v)). split.
    + simpl. unfold ret. f_equal. destruct v as [[] ?]; reflexivity.
    + intros i. rewrite bool_decide_eq_false_2 by apply not_elem_of_nil.
      destruct (meshes (scene v) !! i); reflexivity.
  - destruct (IH (set_scene (with_meshes (alter f h) (scene v)) v)) as (l' & E & Hl).
    exists l'. split.
    + simpl. unfold bind at 1. unfold writeMesh at 1, assign. rewrite E. reflexivity.
    + intros i. rewrite Hl. simpl. rewrite list_lookup_alter.
      destruct (decide (h = i)) as [->|Hne].
      * rewrite (bool_decide_eq_true_2 (i ∈ i :: hs)) by left.
        destruct (bool_decide (i ∈ hs)); destruct (meshes (scene v) !! i); simpl;
          rewrite ?Hf; reflexivity.
      * destruct (bool_decide_reflect (i ∈ hs)) as [Hin|Hin].
        -- rewrite bool_decide_eq_true_2 by (right; exact Hin). reflexivity.
        -- rewrite bool_decide_eq_false_2; [reflexivity|].
           rewrite elem_of_cons. intros [->|?]; contradiction.
Qed.

Lemma processMesh_eq (h : nat) (m : Mesh) (v : FarmViewer) :
  meshes (scene v) !! h = Some m ->
  processMesh h v =
    (Normal tt,
     set_scene {| meshes := alter (set_checkCollisions true) h (meshes (scene v));
                  materials := match material m with
                               | Some k => alter (set_backFaceCulling false) k
                                                 (materials (scene v))
                               | None => materials (scene v)
                               end |} v).
Proof.
  intros Hm. unfold processMesh, bind, writeMesh, assign, readMesh. simpl.
  rewrite list_lookup_alter_eq, Hm. simpl.
  destruct (material m); reflexivity.
Qed.

Lemma names_material_ext (s s' : Scene) (hs : list nat) (k : nat) :
  (forall h, h ∈ hs -> material <$> meshes s !! h = material <$> meshes s' !! h) ->
  names_material s hs k = names_material s' hs k.
Proof.
  unfold names_material. induction hs as [|a hs IH]; intros Hs; [reflexivity|].
  cbn [existsb]. rewrite IH by (intros h Hh; apply Hs; right; exact Hh).
  f_equal. specialize (Hs a ltac:(left)).
  destruct (meshes s !! a) as [x|], (meshes s' !! a) as [x'|]; simpl in *;
    try discriminate; [|reflexivity].
  injection Hs as Hs. rewrite Hs. reflexivity.
Qed.

Lemma names_material_alter (f : Mesh -> Mesh) (h : nat) (s : Scene) (mats : list Material)
      (hs : list nat) (k : nat) :
  (forall m, material (f m) = material m) ->
  names_material {| meshes := alter f h (meshes s); materials := mats |} hs k
  = names_material s hs k.
Proof.
  intros Hf. unfold names_material. induction hs as [|a hs IH]; [reflexivity|].
  cbn [existsb]. rewrite IH. f_equal. cbn [meshes]. rewrite list_lookup_alter.
  destruct (decide (h = a)) as [->|]; [|reflexivity].
  destruct (meshes s !! a); simpl; [rewrite Hf|]; reflexivity.
Qed.

(** The second loop of [loadTerrain]: every listed mesh gets collisions
    enabled, and culling is switched off in exactly the materials that the
    listed meshes name. *)
Lemma forEach_processMesh (hs : list nat) (v : FarmViewer) :
  Forall (fun h => is_Some (meshes (scene v) !! h)) hs ->
  exists l' mats',
    forEach hs processMesh v
      = (Normal tt, set_scene {| meshes := l'; materials := mats' |} v) /\
    (forall i, l' !! i = (if bool_decide (i ∈ hs) then set_checkCollisions true
                          else fun m => m) <$> meshes (scene v) !! i) /\
    (forall k, mats' !! k = (if names_material (scene v) hs k
                             then set_backFaceCulling false
                             else fun m => m) <$> materials (scene v) !! k).
Proof.
  revert v. induction hs as [|h hs IH]; intros v Hv.
  - exists (meshes (scene v)), (materials (scene v)). split; [|split].
    + simpl. unfold ret. f_equal. destruct v as [[] ?]; reflexivity.
    + intros i. rewrite bool_decide_eq_false_2 by apply not_elem_of_nil.
      destruct (meshes (scene v) !! i); reflexivity.
    + intros k. simpl. destruct (materials (scene v) !! k); reflexivity.
  - inversion Hv as [|? ? Hh Hhs]; subst.
    destruct Hh as [m Hm].
    pose proof (processMesh_eq h m v Hm) as E1.
    set (v1 := set_scene _ v) in E1.
    destruct (IH v1) as (l' & mats' & E & Hl & Hmat).
    { unfold v1. cbn [scene set_scene meshes]. eapply Forall_impl; [exact Hhs|].
      intros i [mi Hi]. rewrite list_lookup_alter.
      destruct (decide (h = i)) as [->|]; [rewrite Hi|]; eauto. }
    exists l', mats'. split; [|split].
    + simpl. unfold bind at 1. rewrite E1, E. reflexivity.
    + intros i. rewrite Hl. simpl. rewrite list_lookup_alter.
      destruct (decide (h = i)) as [->|Hne].
      * rewrite (bool_decide_eq_true_2 (i ∈ i :: hs)) by left.
        destruct (bool_decide (i ∈ hs)); destruct (meshes (scene v) !! i); reflexivity.
      * destruct (bool_decide_reflect (i ∈ hs)) as [Hin|Hin].
        -- rewrite bool_decide_eq_true_2 by (right; exact Hin). reflexivity.
        -- rewrite bool_decide_eq_false_2; [reflexivity|].
           rewrite elem_of_cons. intros [->|?]; contradiction.
    + intros k. rewrite Hmat. unfold v1. simpl scene.
      rewrite names_material_alter by reflexivity.
      simpl materials. simpl names_material. rewrite Hm. simpl from_option.
      destruct (material m) as [k0|].
      * rewrite list_lookup_alter.
        destruct (decide (k0 = k)) as [->|Hne].
        -- rewrite bool_decide_eq_true_2 by reflexivity. simpl.
           destruct (names_material (scene v) hs k); destruct (materials (scene v) !! k);
             reflexivity.
        -- rewrite bool_decide_eq_false_2 by congruence. reflexivity.
      * rewrite bool_decide_eq_false_2 by discriminate. reflexivity.
Qed.

(** The placeholder path written out: one new mesh, one new material. *)
Lemma createPlaceholderTerrain_eq (Math_random : nat -> Q) (v : FarmViewer) :
  createPlaceholderTerrain Math_random v =
    (Normal tt,
     set_scene
       {| meshes := meshes (scene v) ++
            [ {| name := "placeholderTerrain"; parent := None; checkCollisions := true;
                 material := Some (length (materials (scene v)));
                 positions := randomHeights Math_random (groundVertices 30 30 8) |} ];
          materials := materials (scene v) ++ [ standardMaterial "placeholderMaterial" ] |}
       (set_farmMesh (Some (length (meshes (scene v)))) v)).
Proof.
  unfold createPlaceholderTerrain, bind, addMesh, readMesh, writeMesh, addMaterial, assign,
    set_scene, set_farmMesh, with_meshes, with_materials.
  cbn -[groundVertices randomHeights lookup alter].
  rewrite list_lookup_middle by reflexivity.
  cbn -[groundVertices randomHeights lookup alter].
  rewrite !(alter_app_r_alt _ (meshes (scene v))) by reflexivity.
  rewrite Nat.sub_diag. reflexivity.
Qed.

Lemma findObjFile_eqb (fetch : nat -> string -> Response) (terrainName : string) :
  String.eqb (findObjFile fetch terrainName) EmptyString = false.
Proof.
  apply String.eqb_neq.
  unfold findObjFile.
  pose proof (probeNames_spec fetch terrainName (possibleNames terrainName) 0) as H.
  destruct (probeNames fetch terrainName 0 (possibleNames terrainName)) as [f|].
  - destruct H as (j & Hj & _). apply (possibleNames_nonempty terrainName).
    apply list_elem_of_lookup. eauto.
  - apply append_obj_nonempty.
Qed.

Lemma bind_Normal {A B : Type} (m : Js A) (k : A -> Js B) (v v' : FarmViewer) (a : A) :
  m v = (Normal a, v') -> bind m k v = k a v'.
Proof. intros H. unfold bind. rewrite H. reflexivity. Qed.

Lemma bind_assign {B : Type} (f : FarmViewer -> FarmViewer) (k : unit -> Js B)
      (v : FarmViewer) :
  bind (assign f) k v = k tt (f v).
Proof. reflexivity. Qed.

Lemma bind_this {B : Type} (k : FarmViewer -> Js B) (v : FarmViewer) :
  bind this k v = k v v.
Proof. reflexivity. Qed.

Lemma bind_addMesh {B : Type} (m : Mesh) (k : nat -> Js B) (v : FarmViewer) :
  bind (addMesh m) k v
  = k (length (meshes (scene v)))
      (set_scene (with_meshes (fun l => l ++ [m]) (scene v)) v).
Proof. reflexivity. Qed.

Lemma bind_readMesh {B : Type} (h : nat) (m : Mesh) (k : Mesh -> Js B) (v : FarmViewer) :
  meshes (scene v) !! h = Some m -> bind (readMesh h) k v = k m v.
Proof. intros H. unfold bind, readMesh. rewrite H. reflexivity. Qed.

Lemma bind_bind {A B C : Type} (m : Js A) (k : A -> Js B) (k' : B -> Js C) (v : FarmViewer) :
  bind (bind m k) k' v = bind m (fun a => bind (k a) k') v.
Proof. unfold bind. destruct (m v) as [[a|e] v']; reflexivity. Qed.

Ltac js_step :=
  repeat first [ rewrite bind_bind | rewrite bind_assign | rewrite bind_this
               | rewrite bind_addMesh | progress (cbn beta) ].

Section LoaderFacts.

Variable fetch : nat -> string -> Response.
Variable importMesh : string -> string -> ImportOutcome.
Variable Math_random : nat -> Q.

Lemma loadTerrain_rejected (v : FarmViewer) (e : string) :
  imported fetch importMesh v = ImportRejected e ->
  loadTerrain fetch importMesh Math_random v = createPlaceholderTerrain Math_random v.
Proof.
  unfold imported. intros H.
  unfold loadTerrain, try_catch, loadTerrain_try, bind at 1, this.
  rewrite findObjFile_eqb. unfold bind at 1, ImportMeshAsync. rewrite H.
  reflexivity.
Qed.

Lemma loadTerrain_no_meshes (v : FarmViewer) (mats : list Material) :
  imported fetch importMesh v = ImportResolved mats [] ->
  loadTerrain fetch importMesh Math_random v =
    createPlaceholderTerrain Math_random
      (set_scene {| meshes := meshes (scene v) ++ [];
                    materials := materials (scene v) ++ mats |} v).
Proof.
  unfold imported. intros H.
  unfold loadTerrain, try_catch, loadTerrain_try, bind at 1, this.
  rewrite findObjFile_eqb. unfold bind at 1, ImportMeshAsync. rewrite H.
  reflexivity.
Qed.


(** Import of one mesh: the mesh is the entity. *)
Lemma loadTerrain_single (v : FarmViewer) (mats : list Material) (m : Mesh) :
  imported fetch importMesh v = ImportResolved mats [m] ->
  loadTerrain fetch importMesh Math_random v =
    (Normal tt,
     set_scene
       {| meshes := meshes (scene v) ++ [set_checkCollisions true m];
          materials := match material m with
                       | Some k => alter (set_backFaceCulling false) k
                                         (materials (scene v) ++ mats)
                       | None => materials (scene v) ++ mats
                       end |}
       (set_terrainMinY (Vector3.y (minimum (getBoundingInfo m)) - 1)
          (set_farmMesh (Some (length (meshes (scene v)))) v))).
Proof.
  unfold imported. intros H.
  unfold loadTerrain, try_catch, loadTerrain_try, bind at 1, this.
  rewrite findObjFile_eqb. unfold bind at 1, ImportMeshAsync. rewrite H.
  cbn [length seq Nat.ltb Nat.leb].
  unfold bind, assign, this, readMesh.
  cbn [farmMesh set_farmMesh scene set_scene meshes].
  rewrite list_lookup_middle by reflexivity.
  cbn [forEach]. unfold bind.
  erewrite processMesh_eq.
  2:{ cbn [scene set_scene set_farmMesh set_terrainMinY meshes].
      apply list_lookup_middle. reflexivity. }
  unfold ret.
  cbn [scene set_scene set_farmMesh set_terrainMinY meshes materials].
  rewrite (alter_app_r_alt _ (meshes (scene v))) by reflexivity.
  rewrite Nat.sub_diag. reflexivity.
Qed.

Lemma forEach_attachTo (p : nat) (hs : list nat) (v : FarmViewer) :
  exists l',
    forEach hs (attachTo p) v
      = (Normal tt, set_scene {| meshes := l'; materials := materials (scene v) |} v) /\
    forall i, l' !! i = (if bool_decide (i ∈ hs) then set_parent (Some p)
                         else fun m => m) <$> meshes (scene v) !! i.
Proof. apply (forEach_writeMesh (set_parent (Some p))). reflexivity. Qed.

(** Import of several meshes: a new node is the entity, the meshes are its
    children, and the floor is taken from the box of the new node. *)
Lemma loadTerrain_composite (v : FarmViewer) (mats : list Material) (m1 m2 : Mesh)
      (ms : list Mesh) :
  imported fetch importMesh v = ImportResolved mats (m1 :: m2 :: ms) ->
  exists s',
    loadTerrain fetch importMesh Math_random v =
      (Normal tt,
       set_scene s'
         (set_terrainMinY (0 - 1)
            (set_farmMesh (Some (length (meshes (scene v)) + length (m1 :: m2 :: ms))%nat) v)))
    /\
    (forall i,
        meshes s' !! i =
          (if bool_decide (i ∈ seq (length (meshes (scene v))) (length (m1 :: m2 :: ms)))
           then fun m => set_checkCollisions true
                           (set_parent (Some (length (meshes (scene v))
                                              + length (m1 :: m2 :: ms))%nat) m)
           else fun m => m)
          <$> (meshes (scene v) ++ (m1 :: m2 :: ms) ++ [emptyMesh "terrainParent"]) !! i)
    /\
    (forall k,
        materials s' !! k =
          (if names_material {| meshes := meshes (scene v) ++ m1 :: m2 :: ms;
                                materials := [] |}
                             (seq (length (meshes (scene v))) (length (m1 :: m2 :: ms))) k
           then set_backFaceCulling false
           else fun m => m)
          <$> (materials (scene v) ++ mats) !! k).
Proof.
  unfold imported. intros H.
  set (news := m1 :: m2 :: ms) in *.
  set (n := length (meshes (scene v))).
  unfold loadTerrain, try_catch, loadTerrain_try. rewrite bind_this.
  rewrite findObjFile_eqb.
  erewrite bind_Normal; [|unfold ImportMeshAsync; rewrite H; reflexivity].
  fold n.
  assert (Hres : seq n (length news) = n :: S n :: seq (S (S n)) (length ms)) by reflexivity.
  remember (seq n (length news)) as hs eqn:Ehs.
  destruct hs as [|h1 [|h2 hs']]; [discriminate Hres|discriminate Hres|].
  clear Hres. cbn [length Nat.ltb Nat.leb].
  remember (h1 :: h2 :: hs') as hs eqn:Ehs'.
  js_step.
  cbn [scene set_scene set_farmMesh with_meshes meshes materials].
  rewrite length_app. fold n.
  set (p := (n + length news)%nat).
  match goal with |- context [bind (forEach hs (attachTo p)) _ ?v0] =>
    destruct (forEach_attachTo p hs v0) as (l4 & E4 & Hl4)
  end.
  erewrite bind_Normal; [|exact E4]. clear E4.
  cbn [scene set_scene set_farmMesh with_meshes meshes materials] in *.
  js_step. cbn [farmMesh set_scene set_farmMesh].
  assert (Hp : p ∉ hs).
  { rewrite Ehs, elem_of_seq. unfold p. lia. }
  assert (Hl4p : l4 !! p = Some (emptyMesh "terrainParent")).
  { rewrite Hl4, bool_decide_eq_false_2 by exact Hp.
    rewrite list_lookup_middle; [reflexivity|]. unfold p, n. rewrite length_app. reflexivity. }
  js_step. erewrite bind_readMesh; [|exact Hl4p].
  js_step.
  cbn [getBoundingInfo positions emptyMesh minimum Vector3.y Vector3.Zero].
  match goal with |- context [forEach hs processMesh ?v0] =>
    destruct (forEach_processMesh hs v0) as (l6 & mats6 & E6 & Hl6 & Hm6)
  end.
  { cbn [scene set_scene set_farmMesh set_terrainMinY meshes].
    rewrite Ehs. apply Forall_forall. intros i Hi. rewrite Hl4.
    apply fmap_is_Some. apply lookup_lt_is_Some_2.
    apply elem_of_seq in Hi. rewrite !length_app. subst n news. cbn [length] in *. lia. }
  rewrite E6. clear E6.
  cbn [scene set_scene set_farmMesh set_terrainMinY meshes materials] in *.
  exists {| meshes := l6; materials := mats6 |}. split; [reflexivity|]. split.
  - intros i. cbn [meshes]. rewrite Hl6, Hl4.
    rewrite <- app_assoc.
    destruct (bool_decide (i ∈ hs));
      destruct ((meshes (scene v) ++ news ++ [emptyMesh "terrainParent"]) !! i); reflexivity.
  - intros k. cbn [materials]. rewrite Hm6.
    rewrite (names_material_ext _ {| meshes := meshes (scene v) ++ news; materials := [] |});
      [reflexivity|].
    intros h Hh. cbn [meshes]. rewrite Hl4.
    rewrite lookup_app_l.
    2:{ rewrite Ehs in Hh. apply elem_of_seq in Hh. rewrite length_app. fold n. lia. }
    destruct (bool_decide (h ∈ hs)); destruct ((meshes (scene v) ++ news) !! h); reflexivity.
Qed.



(** Import of at least one mesh: the floor is one unit below the lowest
    point of the box that the engine reports for the entity. *)
Lemma loadTerrain_imported_floor (v : FarmViewer) (mats : list Material) (m : Mesh)
      (ms : list Mesh) :
  imported fetch importMesh v = ImportResolved mats (m :: ms) ->
  exists (v' : FarmViewer) (entity : nat) (b : BoundingBox),
    loadTerrain fetch importMesh Math_random v = (Normal tt, v') /\
    farmMesh v' = Some entity /\
    boundingBoxOf (scene v') entity = Some b /\
    terrainMinY v' = Vector3.y (minimum b) - 1.
Proof.
  intros E. destruct ms as [|m2 ms].
  - rewrite (loadTerrain_single _ _ _ E).
    eexists _, (length (meshes (scene v))), _. split; [reflexivity|].
    unfold boundingBoxOf.
    cbn [farmMesh scene set_scene set_farmMesh set_terrainMinY meshes terrainMinY].
    rewrite list_lookup_middle by reflexivity.
    split; [reflexivity|]. split; reflexivity.
  - destruct (loadTerrain_composite _ _ _ _ _ E) as (s' & -> & Hl & _).
    eexists _, (length (meshes (scene v)) + length (m :: m2 :: ms))%nat, _.
    split; [reflexivity|]. unfold boundingBoxOf.
    cbn [farmMesh scene set_scene set_farmMesh set_terrainMinY terrainMinY].
    rewrite Hl. rewrite bool_decide_eq_false_2 by (rewrite elem_of_seq; lia).
    rewrite app_assoc.
    rewrite list_lookup_middle by (rewrite length_app; reflexivity).
    split; [reflexivity|]. split; reflexivity.
Qed.

(** Import of several meshes: the entity is a new node named
    "terrainParent"; every returned mesh is a child of it, has collisions
    enabled and culling off in its material; the floor is -1, whatever the
    meshes are. *)
Lemma loadTerrain_composite_entity (v : FarmViewer) (mats : list Material)
      (m1 m2 : Mesh) (ms : list Mesh) :
  imported fetch importMesh v = ImportResolved mats (m1 :: m2 :: ms) ->
  exists (v' : FarmViewer) (entity : nat),
    loadTerrain fetch importMesh Math_random v = (Normal tt, v') /\
    farmMesh v' = Some entity /\
    name <$> meshes (scene v') !! entity = Some "terrainParent"%string /\
    (forall h, h ∈ seq (length (meshes (scene v))) (length (m1 :: m2 :: ms)) ->
               child_of (scene v') entity h = true /\
               collides (scene v') h = true /\
               culling_off (scene v') h = true) /\
    terrainMinY v' == -1.
Proof.
  intros E.
  destruct (loadTerrain_composite _ _ _ _ _ E) as (s' & -> & Hl & Hm).
  set (news := m1 :: m2 :: ms) in *.
  set (n := length (meshes (scene v))) in *.
  eexists _, (n + length news)%nat. split; [reflexivity|].
  cbn [farmMesh scene set_scene set_farmMesh set_terrainMinY terrainMinY].
  split; [reflexivity|]. split; [|split; [|reflexivity]].
  - rewrite Hl. rewrite bool_decide_eq_false_2 by (rewrite elem_of_seq; lia).
    rewrite app_assoc.
    rewrite list_lookup_middle by (rewrite length_app; reflexivity). reflexivity.
  - intros h Hh.
    assert (Hlt : (h < length (meshes (scene v) ++ news))%nat).
    { apply elem_of_seq in Hh. rewrite length_app. fold n. lia. }
    destruct (lookup_lt_is_Some_2 _ _ Hlt) as [mh Hmh].
    unfold child_of, collides, culling_off. rewrite Hl.
    rewrite (bool_decide_eq_true_2 _ Hh).
    rewrite app_assoc, (lookup_app_l _ _ _ Hlt), Hmh.
    cbn. rewrite bool_decide_eq_true_2 by reflexivity.
    split; [reflexivity|]. split; [reflexivity|].
    destruct (material mh) as [k|] eqn:Ek; [|reflexivity].
    rewrite Hm.
    replace (names_material {| meshes := meshes (scene v) ++ news; materials := [] |}
                            (seq n (length news)) k) with true.
    + destruct ((materials (scene v) ++ mats) !! k); reflexivity.
    + symmetry. unfold names_material. apply existsb_exists.
      exists h. split; [apply list_elem_of_In; exact Hh|].
      cbn [meshes]. rewrite Hmh. cbn. rewrite Ek. apply bool_decide_eq_true_2. reflexivity.
Qed.

Lemma extractMinAndMax_floor (lb : Q) (ps : list Vector3.t) (p : Vector3.t) :
  lb <= Vector3.y p ->
  Forall (fun q => lb <= Vector3.y q) ps ->
  lb <= Vector3.y (minimum (extractMinAndMax p ps)).
Proof.
  unfold extractMinAndMax. intros Hp.
  assert (Hb : lb <= Vector3.y (minimum {| minimum := p; maximum := p |})) by exact Hp.
  revert Hb. generalize {| minimum := p; maximum := p |} as b. clear Hp.
  induction ps as [|q ps IH]; intros b Hb Hps; [exact Hb|].
  inversion Hps as [|? ? Hq Hrest]; subst.
  cbn [foldl]. apply IH; [|exact Hrest].
  cbn. unfold Math_min. apply Q.min_glb; assumption.
Qed.

(** In a placeholder patch built from non-negative draws no vertex lies
    below height 0. *)
Lemma placeholder_box_floor (ps : list Vector3.t) (m : Mesh) :
  (forall k, 0 <= Math_random k) ->
  positions m = randomHeights Math_random ps ->
  0 <= Vector3.y (minimum (getBoundingInfo m)).
Proof.
  intros Hr Hm. unfold getBoundingInfo.
  assert (Hall : Forall (fun q => 0 <= Vector3.y q) (positions m)).
  { rewrite Hm. apply Forall_forall. intros q Hq.
    apply elem_of_lookup_imap_1 in Hq as (i & y & -> & _).
    unfold Vector3.set_y. cbn [Vector3.y]. specialize (Hr i). lra. }
  destruct (positions m) as [|p rest].
  - cbn. discriminate.
  - inversion Hall; subst. apply extractMinAndMax_floor; assumption.
Qed.

(** When nothing can be imported the floor keeps the value it had, and the
    placeholder lies at or above height 0: with the floor the constructor
    sets, -5, the floor is not one unit below the box of the placeholder. *)
Lemma loadTerrain_placeholder_floor (v : FarmViewer) :
  (forall k, 0 <= Math_random k) ->
  (exists e, imported fetch importMesh v = ImportRejected e) \/
  (exists mats, imported fetch importMesh v = ImportResolved mats []) ->
  exists (v' : FarmViewer) (entity : nat) (b : BoundingBox),
    loadTerrain fetch importMesh Math_random v = (Normal tt, v') /\
    farmMesh v' = Some entity /\
    boundingBoxOf (scene v') entity = Some b /\
    terrainMinY v' = terrainMinY v /\
    0 <= Vector3.y (minimum b) /\
    (terrainMinY v == -5 -> ~ terrainMinY v' == Vector3.y (minimum b) - 1).
Proof.
  intros Hr [[e E]|[mats E]].
  - rewrite (loadTerrain_rejected _ _ E), createPlaceholderTerrain_eq.
    eexists _, (length (meshes (scene v))), _. split; [reflexivity|].
    unfold boundingBoxOf.
    cbn [farmMesh scene set_scene set_farmMesh meshes terrainMinY].
    rewrite list_lookup_middle by reflexivity.
    split; [reflexivity|]. split; [reflexivity|]. split; [reflexivity|].
    match goal with |- 0 <= ?q /\ _ => assert (H0 : 0 <= q) end.
    { eapply placeholder_box_floor; [exact Hr|reflexivity]. }
    split; [exact H0|]. intros H5 Hc. rewrite H5 in Hc. lra.
  - rewrite (loadTerrain_no_meshes _ _ E), createPlaceholderTerrain_eq.
    cbn [scene set_scene meshes materials].
    eexists _, (length (meshes (scene v) ++ [])), _. split; [reflexivity|].
    unfold boundingBoxOf.
    cbn [farmMesh scene set_scene set_farmMesh meshes terrainMinY].
    rewrite list_lookup_middle by reflexivity.
    split; [reflexivity|]. split; [reflexivity|]. split; [reflexivity|].
    match goal with |- 0 <= ?q /\ _ => assert (H0 : 0 <= q) end.
    { eapply placeholder_box_floor; [exact Hr|reflexivity]. }
    split; [exact H0|]. intros H5 Hc. rewrite H5 in Hc. lra.
Qed.

End LoaderFacts.

(** C1.  Whatever the probes answer and whatever the importer does (it
    throws, it returns no mesh, one mesh or several), [loadTerrain] completes
    normally: it does not throw.  In the state it leaves, [farmMesh] is a
    handle of a node of the scene, and some mesh that is this node or a
    child of it has collisions enabled.  [terrainMinY], a number in every
    state, is the number it was before the call or one less than the lowest
    [y] of the box that the engine reports for that node. *)
Theorem loadTerrain_total (fetch : nat -> string -> Response)
        (importMesh : string -> string -> ImportOutcome) (Math_random : nat -> Q)
        (v : FarmViewer) :
  exists (v' : FarmViewer) (entity h : nat),
    loadTerrain fetch importMesh Math_random v = (Normal tt, v') /\
    farmMesh v' = Some entity /\
    is_Some (meshes (scene v') !! entity) /\
    (terrainMinY v' = terrainMinY v \/
     exists b, boundingBoxOf (scene v') entity = Some b /\
               terrainMinY v' = Vector3.y (minimum b) - 1) /\
    (h = entity \/ child_of (scene v') entity h = true) /\
    collides (scene v') h = true.
Proof.
  destruct (imported fetch importMesh v) as [e|mats [|m1 [|m2 ms]]] eqn:E.
  - rewrite (loadTerrain_rejected _ _ _ _ _ E), createPlaceholderTerrain_eq.
    eexists _, (length (meshes (scene v))), (length (meshes (scene v))).
    split; [reflexivity|]. unfold collides.
    cbn [farmMesh scene set_scene set_farmMesh meshes terrainMinY].
    rewrite list_lookup_middle by reflexivity.
    split; [reflexivity|]. split; [eexists; reflexivity|].
    split; [left; reflexivity|]. split; [left; reflexivity|reflexivity].
  - rewrite (loadTerrain_no_meshes _ _ _ _ _ E), createPlaceholderTerrain_eq.
    cbn [scene set_scene meshes materials].
    eexists _, (length (meshes (scene v) ++ [])), (length (meshes (scene v) ++ [])).
    split; [reflexivity|]. unfold collides.
    cbn [farmMesh scene set_scene set_farmMesh meshes terrainMinY].
    rewrite list_lookup_middle by reflexivity.
    split; [reflexivity|]. split; [eexists; reflexivity|].
    split; [left; reflexivity|]. split; [left; reflexivity|reflexivity].
  - rewrite (loadTerrain_single _ _ _ _ _ _ E).
    eexists _, (length (meshes (scene v))), (length (meshes (scene v))).
    split; [reflexivity|]. unfold collides, boundingBoxOf.
    cbn [farmMesh scene set_scene set_farmMesh set_terrainMinY meshes terrainMinY].
    rewrite list_lookup_middle by reflexivity.
    split; [reflexivity|]. split; [eexists; reflexivity|].
    split; [right; eexists; split; reflexivity|].
    split; [left; reflexivity|reflexivity].
  - destruct (loadTerrain_composite _ _ Math_random _ _ _ _ _ E) as (s' & -> & Hl & _).
    assert (Hin : length (meshes (scene v))
                  ∈ seq (length (meshes (scene v))) (length (m1 :: m2 :: ms))) by left.
    exists (set_scene s' (set_terrainMinY (0 - 1)
              (set_farmMesh (Some (length (meshes (scene v)) + length (m1 :: m2 :: ms))%nat) v))),
      (length (meshes (scene v)) + length (m1 :: m2 :: ms))%nat,
      (length (meshes (scene v))).
    split; [reflexivity|]. unfold collides, child_of, boundingBoxOf.
    cbn [farmMesh scene set_scene set_farmMesh set_terrainMinY terrainMinY].
    rewrite !Hl. rewrite (bool_decide_eq_true_2 _ Hin).
    rewrite bool_decide_eq_false_2 by (rewrite elem_of_seq; lia).
    assert (Hn : (meshes (scene v) ++ (m1 :: m2 :: ms) ++ [emptyMesh "terrainParent"])
                   !! length (meshes (scene v)) = Some m1)
      by (apply list_lookup_middle; reflexivity).
    assert (Hp : (meshes (scene v) ++ (m1 :: m2 :: ms) ++ [emptyMesh "terrainParent"])
                   !! (length (meshes (scene v)) + length (m1 :: m2 :: ms))%nat
                 = Some (emptyMesh "terrainParent")).
    { rewrite app_assoc. apply list_lookup_middle. rewrite length_app. reflexivity. }
    rewrite Hn, Hp.
    cbn. rewrite bool_decide_eq_true_2 by reflexivity.
    split; [reflexivity|]. split; [eexists; reflexivity|].
    split; [right; eexists; split; reflexivity|].
    split; [right; reflexivity|reflexivity].
Qed.

(** C2.  The floor after loading, at two inputs.  When the file holds one
    mesh spanning the heights -2 to 5, the floor is -3: one unit below the
    box of the entity.  When nothing can be imported, the entity is the
    placeholder, whose box starts at height 3/2 (every draw being 1/2), and
    the floor is still the -5 of the constructor, not 3/2 - 1:
    [createPlaceholderTerrain] does not assign [terrainMinY]. *)
Theorem floor_after_placeholder :
  let loaded := snd (loadTerrain online onePart evenDraws
                                 (constructed false emptyScene None)) in
  let fallback := snd (loadTerrain offline missingFile evenDraws
                                   (constructed false emptyScene None)) in
  (farmMesh loaded = Some 0%nat /\
   (fun b => Vector3.y (minimum b)) <$> boundingBoxOf (scene loaded) 0 = Some (-2) /\
   terrainMinY loaded == -2 - 1) /\
  (farmMesh fallback = Some 0%nat /\
   (fun b => Vector3.y (minimum b)) <$> boundingBoxOf (scene fallback) 0 = Some (3 # 2) /\
   terrainMinY fallback == -5 /\
   ~ terrainMinY fallback == (3 # 2) - 1).
Proof.
  vm_compute. repeat split; discriminate.
Qed.

(** C3.  Import of a file of three meshes whose lowest points are at -10,
    -3 and 0.  The entity is a fourth node; each of the three meshes is a
    child of it, has collisions enabled and, when it has a material, culling
    off in it.  The box of the three meshes together starts at -10, but the
    floor is -1, not -11: it is taken from the box of the new node, which
    has no geometry. *)
Theorem floor_after_three_parts :
  let v' := snd (loadTerrain online threeParts evenDraws
                             (constructed false emptyScene None)) in
  farmMesh v' = Some 3%nat /\
  forallb (fun h => child_of (scene v') 3 h && collides (scene v') h
                    && culling_off (scene v') h) [0; 1; 2]%nat = true /\
  backFaceCulling <$> materials (scene v') !! 0%nat = Some false /\
  (fun b => Vector3.y (minimum b)) <$> combinedBox (scene v') [0; 1; 2]%nat = Some (-10) /\
  boundingBoxOf (scene v') 3 = Some {| minimum := Vector3.Zero; maximum := Vector3.Zero |} /\
  terrainMinY v' == -1 /\
  ~ terrainMinY v' == -10 - 1.
Proof.
  vm_compute. repeat split; discriminate.
Qed.

(** ** Spawn placement *)

Lemma Math_max_plus (a b c : Q) : Math_max (a + c) (b + c) == Math_max a b + c.
Proof.
  unfold Math_max.
  destruct (Q.max_spec a b) as [[H E]|[H E]];
    destruct (Q.max_spec (a + c) (b + c)) as [[H' E']|[H' E']];
    rewrite E, E'; lra.
Qed.

Lemma Math_max_ge_r (a b : Q) : b <= Math_max a b.
Proof. apply Q.le_max_r. Qed.

(** The vector of the [else] branch of [positionCameraForTerrain] is the one
    the design gives for the walking camera; its offset along z from the
    centre of the box is at least 10, and is 16 for a box 40 deep. *)
Lemma firstPersonSpawn_formula (b : BoundingBox) (playerHeight : Q) :
  let center := boxCenter b in
  let extent := boxSize b in
  let spawn := firstPersonSpawn b playerHeight in
  Vector3.x spawn == Vector3.x center /\
  Vector3.y spawn == Math_max (Vector3.y center) (Vector3.y (maximum b)) + playerHeight /\
  Vector3.z spawn == Vector3.z center + Math_max (0.4 * Vector3.z extent) 10 /\
  10 <= Vector3.z spawn - Vector3.z center /\
  (Vector3.z extent == 40 -> Vector3.z spawn - Vector3.z center == 16).
Proof.
  cbn zeta. unfold firstPersonSpawn. cbn [Vector3.x Vector3.y Vector3.z].
  split; [reflexivity|]. split; [apply Math_max_plus|].
  set (cz := Vector3.z (boxCenter b)). set (ez := Vector3.z (boxSize b)).
  assert (Hc : Math_max (ez * 0.4) 10 == Math_max (0.4 * ez) 10).
  { unfold Math_max. apply Q.max_compat; [ring|reflexivity]. }
  split; [rewrite Hc; reflexivity|].
  split.
  - pose proof (Math_max_ge_r (ez * 0.4) 10). lra.
  - intros H40.
    assert (E : Math_max (ez * 0.4) 10 == 16).
    { unfold Math_max. rewrite Q.max_l; lra. }
    rewrite E. ring.
Qed.

(** No camera of the two classes takes that branch: placing the camera
    leaves its x and its y as they were, and its z too, but for the
    [Epsilon] that [setTarget] adds to the z of a first-person camera that
    is at the z of the centre. *)
Lemma positionCameraForTerrain_position
      (rotationToward : Vector3.t -> Vector3.t -> Vector3.t) (v v' : FarmViewer) :
  positionCameraForTerrain rotationToward v = (Normal tt, v') ->
  match camera v, camera v' with
  | Some c, Some c' =>
      Vector3.x (position c') = Vector3.x (position c) /\
      Vector3.y (position c') = Vector3.y (position c) /\
      (Vector3.z (position c') = Vector3.z (position c) \/
       Vector3.z (position c') = Vector3.z (position c) + Epsilon)
  | None, None => True
  | _, _ => False
  end.
Proof.
  unfold positionCameraForTerrain, bind, this, readMesh, assign, ret, throw.
  destruct (farmMesh v) as [entity|].
  - destruct (meshes (scene v) !! entity) as [m|]; [|discriminate].
    destruct (camera v) as [c|] eqn:Ec; [|discriminate].
    unfold has_setTarget, setTarget.
    destruct (class c); intros [= <-]; cbn [camera set_camera].
    + repeat split. left. reflexivity.
    + cbn zeta. destruct (Qeq_bool _ _); repeat split; [right|left]; reflexivity.
  - intros [= <-]. destruct (camera v); [|exact I].
    repeat split. left. reflexivity.
Qed.

(** C7.  Startup with a terrain of one mesh whose box is 40 deep, centred at
    (20, 3/2, 20) with its top at height 5.  The design places the walking
    camera at (20, 5 + 1.8, 20 + 16).  The program leaves it where
    [setupFirstPersonCamera] built it, at (0, 1.8, 10): the first-person
    camera has a [setTarget] method, so [positionCameraForTerrain] takes the
    branch written for the overview camera, which turns the camera toward
    the centre and stores 1.5 times the larger horizontal extent as
    [radius]. *)
Theorem spawn_after_init (rotationToward : Vector3.t -> Vector3.t -> Vector3.t) :
  let v' := snd (init online onePart evenDraws rotationToward
                      (constructed false emptyScene (Some overviewCamera))) in
  boundingBoxOf (scene v') 0
    = Some {| minimum := Vector3.New 0 (-2) 0; maximum := Vector3.New 40 5 40 |} /\
  Vector3.equal
    (firstPersonSpawn {| minimum := Vector3.New 0 (-2) 0; maximum := Vector3.New 40 5 40 |}
                      (playerHeight v'))
    (Vector3.New 20 6.8 36) /\
  class <$> camera v' = Some UniversalCamera /\
  position <$> camera v' = Some (Vector3.New 0 1.8 10) /\
  (exists r, radius <$> camera v' = Some (Some r) /\ r == 60).
Proof.
  vm_compute. repeat split; try discriminate.
  eexists. split; [reflexivity|]. reflexivity.
Qed.

(** ** Per-frame movement *)

Lemma ge_true (a b : Q) : ge a b = true <-> b <= a.
Proof. unfold ge. apply Qle_bool_iff. Qed.

Lemma ge_false (a b : Q) : ge a b = false <-> a < b.
Proof.
  unfold ge. split.
  - intros H. apply Qnot_le_lt. intros Hle. apply Qle_bool_iff in Hle. congruence.
  - intros H. destruct (Qle_bool b a) eqn:E; [|reflexivity].
    apply Qle_bool_iff in E. lra.
Qed.

Lemma nonzero_true (a : Q) : nonzero a = true <-> ~ a == 0.
Proof.
  unfold nonzero. rewrite negb_true_iff. split.
  - intros H E. apply Qeq_bool_iff in E. congruence.
  - intros H. destruct (Qeq_bool a 0) eqn:E; [|reflexivity].
    apply Qeq_bool_iff in E. contradiction.
Qed.

(** The horizontal step leaves the height of the camera as it is. *)
Lemma applyHorizontal_y (movement : Vector3.t) (c : Camera) :
  Vector3.y (position (applyHorizontal movement c)) == Vector3.y (position c).
Proof.
  unfold applyHorizontal. destruct (Vector3.length_gt_0 movement); [|reflexivity].
  cbn. ring.
Qed.

(** The vertical step, when there is a vertical intent: the candidate
    height, raised to the floor line when it is below it. *)
Lemma applyVertical_y (v : FarmViewer) (vm : Q) (c : Camera) :
  ~ vm == 0 ->
  Vector3.y (position (applyVertical v vm c))
  == Math_max (Vector3.y (position c) + vm) (terrainMinY v + playerHeight v).
Proof.
  intros Hnz. unfold applyVertical, Math_max.
  apply nonzero_true in Hnz. rewrite Hnz.
  destruct (ge (Vector3.y (position c) + vm) (terrainMinY v + playerHeight v)) eqn:E.
  - apply ge_true in E. cbn. rewrite Q.max_l; [reflexivity|exact E].
  - apply ge_false in E. cbn. rewrite Q.max_r; [reflexivity|lra].
Qed.

(** C5.  When the vertical intent of a frame is not zero, the height of the
    camera after [updateMovement] is the candidate height (current height
    plus intent) raised to [terrainMinY + playerHeight] when it is below
    that line; so it is never below the line.  With the floor at -6 and a
    player height of 1.8, a downward intent at height -4.2 leaves the camera
    at -4.2. *)
Theorem updateMovement_floor_clamp (forward right : Vector3.t) (v : FarmViewer)
        (c : Camera) :
  camera v = Some c ->
  ~ verticalMovement v == 0 ->
  exists c',
    camera (updateMovement forward right v) = Some c' /\
    Vector3.y (position c')
    == Math_max (Vector3.y (position c) + verticalMovement v)
                (terrainMinY v + playerHeight v) /\
    terrainMinY v + playerHeight v <= Vector3.y (position c') /\
    (terrainMinY v == -6 -> playerHeight v == 1.8 ->
     Vector3.y (position c) == -4.2 -> verticalMovement v < 0 ->
     Vector3.y (position c') == -4.2).
Proof.
  intros Hc Hnz. unfold updateMovement. rewrite Hc. cbn zeta.
  eexists. split; [reflexivity|].
  pose proof (applyVertical_y v (verticalMovement v)
                (applyHorizontal (horizontalMovement forward right v) c) Hnz) as Hy.
  rewrite applyHorizontal_y in Hy.
  split; [exact Hy|]. split.
  - rewrite Hy. apply Q.le_max_r.
  - intros Hf Hp Hcy Hneg. rewrite Hy. unfold Math_max.
    rewrite Q.max_r; lra.
Qed.

Lemma updateMovement_floor_clamp_witness :
  exists c',
    camera (updateMovement Vector3.Zero Vector3.Zero atFloor) = Some c' /\
    Vector3.y (position c') == -4.2.
Proof.
  assert (Hnz : ~ verticalMovement atFloor == 0)
    by (vm_compute; intros H; discriminate H).
  destruct (updateMovement_floor_clamp Vector3.Zero Vector3.Zero atFloor
              (universalCamera (Vector3.New 0 (-4.2) 0)) eq_refl Hnz)
    as (c' & Hc & _ & _ & Hstay).
  exists c'. split; [exact Hc|].
  apply Hstay; vm_compute; reflexivity.
Defined.

(** The camera does go down when there is room below it. *)
Example updateMovement_descends :
  (fun c => Vector3.y (position c))
    <$> camera (updateMovement Vector3.Zero Vector3.Zero (set_terrainMinY (-7) atFloor))
  = Some (-4.2 + (0 - 0.05)).
Proof. reflexivity. Qed.

(** C8.  In every frame, whatever keys are held and whatever the movement
    joystick reports, the displacement that the horizontal step adds to the
    position of the camera has [y] equal to 0 (and the [x] and [z] of the
    composed movement), so the step leaves the height of the camera as it
    was; [updateMovement] is that step followed by the vertical one. *)
Theorem horizontal_step_keeps_height (forward right : Vector3.t) (v : FarmViewer) :
  match camera v with
  | None => updateMovement forward right v = v
  | Some c =>
      let movement := horizontalMovement forward right v in
      let c1 := applyHorizontal movement c in
      (c1 = c \/
       position c1 = Vector3.add (position c)
                                 (Vector3.New (Vector3.x movement) 0 (Vector3.z movement))) /\
      Vector3.y (position c1) == Vector3.y (position c) /\
      updateMovement forward right v
      = set_camera (Some (applyVertical v (verticalMovement v) c1)) v
  end.
Proof.
  unfold updateMovement. destruct (camera v) as [c|]; [|reflexivity].
  cbn zeta. split; [|split; [apply applyHorizontal_y|reflexivity]].
  unfold applyHorizontal.
  destruct (Vector3.length_gt_0 (horizontalMovement forward right v));
    [right; reflexivity|left; reflexivity].
Qed.

(** Forward and strafe together, on a slope: the height is kept. *)
Example horizontal_step_on_slope :
  let v := set_keys (<["w" := true]> (<["d" := true]> ∅))
             (constructed false emptyScene (Some (universalCamera (Vector3.New 0 2 0)))) in
  match camera (updateMovement (Vector3.New 0 (-1) 1) (Vector3.New 1 0 0) v) with
  | Some c => Vector3.equal (position c) (Vector3.New 0.08 2 0.08)
  | None => False
  end.
Proof. vm_compute. repeat split. Qed.

(** C10.  The change that each of the two vertical statements makes to
    [verticalMovement].  With "q" held it is [- verticalSpeed], whatever the
    state of the mobile down button; the button counts, at half speed, only
    when "q" is not held (and the device is a mobile one).  Likewise for "e"
    and the mobile up button.  The vertical intent of the frame is the sum
    of the two changes. *)
Theorem desktop_keys_before_buttons (v : FarmViewer) (vm : Q) :
  flyDown v vm - vm
  == (if held v "q" then - verticalSpeed v
      else if isMobile v && verticalDown (mobileInput v)
           then - (0.5 * verticalSpeed v) else 0) /\
  flyUp v vm - vm
  == (if held v "e" then verticalSpeed v
      else if isMobile v && verticalUp (mobileInput v)
           then 0.5 * verticalSpeed v else 0) /\
  (forall i : MobileInput,
      (if held v "q" then flyDown (set_mobileInput i v) vm == vm - verticalSpeed v
       else True) /\
      (if held v "e" then flyUp (set_mobileInput i v) vm == vm + verticalSpeed v
       else True)) /\
  verticalMovement v == (flyDown v 0 - 0) + (flyUp v 0 - 0).
Proof.
  unfold verticalMovement, flyDown, flyUp, held.
  cbn [keys set_mobileInput verticalSpeed].
  destruct (default false (keys v !! "q"%string));
    destruct (default false (keys v !! "e"%string));
    destruct (isMobile v); destruct (verticalDown (mobileInput v));
    destruct (verticalUp (mobileInput v)); cbn [andb];
    (split; [ring|split; [ring|split; [intros i; split; try exact I; reflexivity|ring]]]).
Qed.

(** Both "q" and the mobile down button: full desktop speed, not the sum. *)
Example q_and_down_button :
  verticalMovement
    (set_mobileInput {| movement := Stick.New 0 0 false; look := Stick.New 0 0 false;
                        verticalUp := false; verticalDown := true |}
       (set_keys (<["q" := true]> ∅) (constructed true emptyScene None)))
  = 0 - 0.05.
Proof. reflexivity. Qed.

(** ** Pitch *)






#[local] Instance clampPitch_proper : Proper (Qeq ==> Qeq) clampPitch.
Proof.
  intros a b E. unfold clampPitch, Math_max, Math_min. rewrite E. reflexivity.
Qed.





Lemma updateMovement_inputs (forward right : Vector3.t) (v : FarmViewer) :
  isMobile (updateMovement forward right v) = isMobile v /\
  mobileInput (updateMovement forward right v) = mobileInput v /\
  mouseSensitivity (updateMovement forward right v) = mouseSensitivity v.
Proof. unfold updateMovement. destruct (camera v); repeat split; reflexivity. Qed.

#[local] Instance in_range_proper : Proper (Qeq ==> iff) in_range.
Proof. intros a b E. unfold in_range. rewrite E. reflexivity. Qed.













(** ** Joystick normalisation *)

Section JoystickFacts.

Local Open Scope R_scope.

Lemma div_defined (a b : R) : b <> 0 -> Joystick.div a b = Some (a / b).
Proof. intros H. unfold Joystick.div. destruct (Req_dec_T b 0); [contradiction|reflexivity]. Qed.

Lemma distance_squared (dx dy : R) :
  sqrt (dx * dx + dy * dy) * sqrt (dx * dx + dy * dy) = dx * dx + dy * dy.
Proof. apply sqrt_sqrt. Lra.nra. Qed.

(** C9.  For a positive max radius.  When the pointer is farther from the
    centre than the max radius, the reported vector has length exactly 1 and
    is the raw offset scaled by a positive factor (so it has the direction
    of the offset), and the reported distance is the max radius.  When the
    pointer is within the max radius, the reported vector is the offset
    divided by the max radius, and its length, distance / maxDistance, is at
    most 1. *)
Theorem normalizeJoystickInput_direction (x y centerX centerY maxDistance : R) :
  0 < maxDistance ->
  let deltaX := x - centerX in
  let deltaY := y - centerY in
  let distance := sqrt (deltaX * deltaX + deltaY * deltaY) in
  exists n,
    Joystick.normalizeJoystickInput x y centerX centerY maxDistance = Some n /\
    (maxDistance < distance ->
       Joystick.magnitude n = 1 /\
       (exists k, 0 < k /\ Joystick.x n = k * deltaX /\ Joystick.y n = k * deltaY) /\
       Joystick.distance n = maxDistance) /\
    (distance <= maxDistance ->
       Joystick.x n = deltaX / maxDistance /\
       Joystick.y n = deltaY / maxDistance /\
       Joystick.magnitude n = distance / maxDistance /\
       Joystick.magnitude n <= 1).
Proof.
  intros Hmax deltaX deltaY distance.
  unfold Joystick.normalizeJoystickInput. fold deltaX deltaY distance.
  pose proof (distance_squared deltaX deltaY) as Hsq. fold distance in Hsq.
  assert (Hd0 : 0 <= distance) by apply sqrt_pos.
  destruct (Rlt_dec maxDistance distance) as [Hfar|Hnear].
  - assert (Hd : distance <> 0) by Lra.lra.
    assert (Hm : maxDistance <> 0) by Lra.lra.
    rewrite !div_defined by assumption. cbn.
    eexists. split; [reflexivity|]. split; [|intros; Lra.lra].
    intros _. unfold Joystick.magnitude. cbn. split; [|split; [|reflexivity]].
    + replace (deltaX / distance * (maxDistance / maxDistance) *
               (deltaX / distance * (maxDistance / maxDistance)) +
               deltaY / distance * (maxDistance / maxDistance) *
               (deltaY / distance * (maxDistance / maxDistance)))
        with ((deltaX * deltaX + deltaY * deltaY) / (distance * distance))
        by (field; split; assumption).
      rewrite <- Hsq. replace (distance * distance / (distance * distance)) with 1
        by (field; assumption).
      apply sqrt_1.
    + exists (/ distance). split; [apply Rinv_0_lt_compat; Lra.lra|].
      split; field; split; assumption.
  - assert (Hm : maxDistance <> 0) by Lra.lra.
    rewrite !div_defined by assumption. cbn.
    eexists. split; [reflexivity|]. split; [intros; Lra.lra|].
    intros _. unfold Joystick.magnitude. cbn.
    assert (Hmag : sqrt (deltaX / maxDistance * (deltaX / maxDistance) +
                         deltaY / maxDistance * (deltaY / maxDistance))
                   = distance / maxDistance).
    { replace (deltaX / maxDistance * (deltaX / maxDistance) +
               deltaY / maxDistance * (deltaY / maxDistance))
        with ((distance / maxDistance) * (distance / maxDistance)).
      - apply sqrt_square. apply Rmult_le_pos; [exact Hd0|].
        apply Rlt_le, Rinv_0_lt_compat. exact Hmax.
      - transitivity ((distance * distance) / (maxDistance * maxDistance));
          [field; assumption|].
        rewrite Hsq. field. assumption. }
    split; [reflexivity|]. split; [reflexivity|]. split; [exact Hmag|].
    rewrite Hmag. apply (Rmult_le_reg_r maxDistance); [exact Hmax|].
    unfold Rdiv. rewrite Rmult_assoc, Rinv_l by assumption. Lra.lra.
Qed.

Lemma normalizeJoystickInput_direction_witness :
  exists n,
    Joystick.normalizeJoystickInput 110 130 50 50 30 = Some n /\
    Joystick.magnitude n = 1 /\
    (exists k, 0 < k /\ Joystick.x n = k * (110 - 50) /\ Joystick.y n = k * (130 - 50)).
Proof.
  destruct (normalizeJoystickInput_direction 110 130 50 50 30 ltac:(Lra.lra))
    as (n & Hn & Hfar & _).
  exists n. split; [exact Hn|].
  assert (H30 : 30 < sqrt ((110 - 50) * (110 - 50) + (130 - 50) * (130 - 50))).
  { replace ((110 - 50) * (110 - 50) + (130 - 50) * (130 - 50)) with (100 * 100) by ring.
    rewrite sqrt_square; Lra.lra. }
  destruct (Hfar H30) as (Hmag & Hdir & _). split; [exact Hmag|exact Hdir].
Defined.

(** With a max radius of 0 the routine divides 0 by 0 (or the offset by 0)
    on both paths: no real vector is reported. *)
Lemma normalizeJoystickInput_zero_radius (x y centerX centerY : R) :
  Joystick.normalizeJoystickInput x y centerX centerY 0 = None.
Proof.
  unfold Joystick.normalizeJoystickInput, Joystick.div.
  destruct (Rlt_dec _ _); destruct (Req_dec_T 0 0); try contradiction;
    repeat (destruct (Req_dec_T _ 0)); reflexivity.
Qed.

(** An element 40 pixels wide has the max radius 0.  A pointer at (23, 24),
    5 pixels from the centre (20, 20) and so beyond the max radius, is not
    reported as a vector of length 1, and a pointer on the centre, within
    the max radius, is not reported as the offset divided by the max radius:
    on both paths the routine divides by 0 and reports no real vector. *)
Lemma normalizeJoystickInput_radius_zero :
  JoystickElement.maxDistance 40 = 0 /\
  JoystickElement.maxDistance 40
  < sqrt ((23 - 20) * (23 - 20) + (24 - 20) * (24 - 20)) /\
  Joystick.normalizeJoystickInput 23 24 20 20 (JoystickElement.maxDistance 40) = None /\
  Joystick.normalizeJoystickInput 20 20 20 20 (JoystickElement.maxDistance 40) = None /\
  ~ (exists n,
        Joystick.normalizeJoystickInput 23 24 20 20 (JoystickElement.maxDistance 40)
        = Some n /\
        Joystick.magnitude n = 1).
Proof.
  assert (Hm : JoystickElement.maxDistance 40 = 0)
    by (unfold JoystickElement.maxDistance; Lra.lra).
  rewrite Hm. split; [reflexivity|]. split; [apply sqrt_lt_R0; Lra.lra|].
  rewrite !normalizeJoystickInput_zero_radius.
  split; [reflexivity|]. split; [reflexivity|].
  intros (n & Hn & _). discriminate Hn.
Qed.

End JoystickFacts.

(** * Further properties *)

(** ** The resolver and the loader *)

(** X1.  The name that [findObjFile] returns is always one of the six
    candidates of [possibleNames]: the default it falls back to when no probe
    succeeds is the second candidate. *)
Theorem findObjFile_in_candidates (fetch : nat -> string -> Response)
        (terrainName : string) :
  findObjFile fetch terrainName ∈ possibleNames terrainName /\
  possibleNames terrainName !! 1%nat = Some (terrainName +:+ ".obj").
Proof.
  split; [|reflexivity]. unfold findObjFile.
  pose proof (probeNames_spec fetch terrainName (possibleNames terrainName) 0) as H.
  destruct (probeNames fetch terrainName 0 (possibleNames terrainName)) as [f|].
  - destruct H as (j & Hj & _). apply list_elem_of_lookup. eauto.
  - unfold possibleNames. right. left.
Qed.

(** Storing in a field the value it holds changes nothing. *)
Lemma set_camera_same (v : FarmViewer) : set_camera (camera v) v = v.
Proof. destruct v; reflexivity. Qed.

(** The state that [loadTerrain] leaves, on each of its paths: the viewer
    it started from with a new scene, a new entity and a floor. *)
Lemma loadTerrain_shape (fetch : nat -> string -> Response)
      (importMesh : string -> string -> ImportOutcome) (Math_random : nat -> Q)
      (v : FarmViewer) :
  exists (s' : Scene) (entity : nat) (floor : Q),
    loadTerrain fetch importMesh Math_random v
      = (Normal tt, set_scene s' (set_terrainMinY floor (set_farmMesh (Some entity) v))) /\
    (length (meshes (scene v)) <= entity < length (meshes s'))%nat /\
    (forall h, (h < length (meshes (scene v)))%nat ->
               meshes s' !! h = meshes (scene v) !! h) /\
    (length (materials (scene v)) <= length (materials s'))%nat.
Proof.
  destruct (imported fetch importMesh v) as [e|mats [|m1 [|m2 ms]]] eqn:E.
  - rewrite (loadTerrain_rejected _ _ _ _ _ E), createPlaceholderTerrain_eq.
    eexists _, _, (terrainMinY v).
    split; [destruct v; reflexivity|].
    cbn [meshes materials]. rewrite !length_app. cbn [length].
    split; [lia|]. split; [|lia].
    intros h Hh. apply lookup_app_l. exact Hh.
  - rewrite (loadTerrain_no_meshes _ _ _ _ _ E), createPlaceholderTerrain_eq.
    cbn [scene set_scene meshes materials].
    exists {| meshes := (meshes (scene v) ++ []) ++
                [ {| name := "placeholderTerrain"; parent := None; checkCollisions := true;
                     material := Some (length (materials (scene v) ++ mats));
                     positions := randomHeights Math_random (groundVertices 30 30 8) |} ];
              materials := (materials (scene v) ++ mats) ++
                [ standardMaterial "placeholderMaterial" ] |},
      (length (meshes (scene v) ++ [])), (terrainMinY v).
    split; [destruct v; reflexivity|].
    cbn [meshes materials]. rewrite !length_app. cbn [length].
    split; [lia|]. split; [|lia].
    intros h Hh. rewrite app_nil_r. apply lookup_app_l. exact Hh.
  - rewrite (loadTerrain_single _ _ _ _ _ _ E).
    eexists _, _, _. split; [reflexivity|].
    cbn [meshes materials]. rewrite !length_app. cbn [length].
    split; [lia|]. split.
    + intros h Hh. apply lookup_app_l. exact Hh.
    + destruct (material m1); rewrite ?length_alter, length_app; lia.
  - destruct (loadTerrain_composite _ _ Math_random _ _ _ _ _ E) as (s' & -> & Hl & Hm).
    eexists _, _, _. split; [reflexivity|].
    set (news := m1 :: m2 :: ms) in *.
    set (n := length (meshes (scene v))) in *.
    assert (Hlen : length (meshes s') = (n + length news + 1)%nat).
    { apply Nat.le_antisymm.
      - apply Nat.nlt_ge. intros Hlt.
        destruct (lookup_lt_is_Some_2 (meshes s') (n + length news + 1)) as [x Hx]; [lia|].
        rewrite Hl in Hx. rewrite lookup_ge_None_2 in Hx; [discriminate|].
        rewrite !length_app. cbn [length]. fold n. lia.
      - apply Nat.nlt_ge. intros Hlt.
        pose proof (Hl (n + length news)%nat) as Hx.
        rewrite (lookup_ge_None_2 (meshes s')) in Hx by lia.
        rewrite app_assoc, list_lookup_middle in Hx
          by (rewrite length_app; reflexivity).
        destruct (bool_decide _) in Hx; discriminate. }
    split; [lia|]. split.
    + intros h Hh. rewrite Hl.
      rewrite bool_decide_eq_false_2 by (rewrite elem_of_seq; fold n; lia).
      rewrite lookup_app_l by exact Hh.
      destruct (meshes (scene v) !! h); reflexivity.
    + apply Nat.nlt_ge. intros Hlt.
      destruct (lookup_lt_is_Some_2 (materials (scene v))
                  (length (materials s'))) as [x Hx]; [lia|].
      pose proof (Hm (length (materials s'))) as Hk.
      rewrite (lookup_ge_None_2 (materials s')) in Hk by lia.
      rewrite lookup_app_l, Hx in Hk by lia.
      destruct (names_material _ _ _) in Hk; discriminate.
Qed.

(** X2.  [loadTerrain] only adds to the scene: whatever the probes answer
    and the importer does, every mesh that was in the scene before the call
    is there unchanged after it, under the same handle; the scene has at
    least one more mesh, and the entity [farmMesh] is one of the new ones.
    The camera, the inputs and the settings of the viewer are as they
    were. *)
Theorem loadTerrain_only_adds (fetch : nat -> string -> Response)
        (importMesh : string -> string -> ImportOutcome) (Math_random : nat -> Q)
        (v : FarmViewer) :
  let v' := snd (loadTerrain fetch importMesh Math_random v) in
  (forall h, (h < length (meshes (scene v)))%nat ->
             meshes (scene v') !! h = meshes (scene v) !! h) /\
  (exists entity, farmMesh v' = Some entity /\
                  (length (meshes (scene v)) <= entity < length (meshes (scene v')))%nat) /\
  (length (materials (scene v)) <= length (materials (scene v')))%nat /\
  camera v' = camera v /\ keys v' = keys v /\ mobileInput v' = mobileInput v /\
  isPointerLocked v' = isPointerLocked v /\ isMobile v' = isMobile v /\
  lastTouch v' = lastTouch v /\ terrainName v' = terrainName v /\
  moveSpeed v' = moveSpeed v /\ mouseSensitivity v' = mouseSensitivity v /\
  playerHeight v' = playerHeight v /\ verticalSpeed v' = verticalSpeed v.
Proof.
  destruct (loadTerrain_shape fetch importMesh Math_random v)
    as (s' & entity & q & -> & Hent & Hold & Hmat).
  cbn [snd scene set_scene set_terrainMinY set_farmMesh farmMesh camera keys mobileInput
       isPointerLocked isMobile lastTouch terrainName moveSpeed mouseSensitivity
       playerHeight verticalSpeed].
  split; [exact Hold|]. split; [exists entity; split; [reflexivity|exact Hent]|].
  split; [exact Hmat|]. repeat split.
Qed.

(** X3.  Import of a file of one mesh: no node is created; the entity is
    the imported mesh itself, which is the only mesh added to the scene.  It
    keeps its name, its parent and its vertices, has collisions enabled and,
    when it carries a material, culling off in it; the floor is one unit
    below the lowest vertex of the mesh. *)
Theorem loadTerrain_single_mesh (fetch : nat -> string -> Response)
        (importMesh : string -> string -> ImportOutcome) (Math_random : nat -> Q)
        (v : FarmViewer) (mats : list Material) (m : Mesh) :
  imported fetch importMesh v = ImportResolved mats [m] ->
  let v' := snd (loadTerrain fetch importMesh Math_random v) in
  let entity := length (meshes (scene v)) in
  farmMesh v' = Some entity /\
  length (meshes (scene v')) = S (length (meshes (scene v))) /\
  meshes (scene v') !! entity = Some (set_checkCollisions true m) /\
  collides (scene v') entity = true /\
  culling_off (scene v') entity = true /\
  boundingBoxOf (scene v') entity = Some (getBoundingInfo m) /\
  terrainMinY v' = Vector3.y (minimum (getBoundingInfo m)) - 1.
Proof.
  intros E. rewrite (loadTerrain_single _ _ _ _ _ _ E).
  cbn [snd scene set_scene set_terrainMinY set_farmMesh farmMesh meshes terrainMinY].
  unfold collides, culling_off, boundingBoxOf. cbn [meshes materials].
  rewrite list_lookup_middle by reflexivity.
  split; [reflexivity|]. split; [rewrite length_app; cbn [length]; lia|].
  split; [reflexivity|]. split; [reflexivity|]. split; [|split; reflexivity].
  cbn [material set_checkCollisions].
  destruct (material m) as [k|]; [|reflexivity].
  rewrite list_lookup_alter_eq.
  destruct ((materials (scene v) ++ mats) !! k); reflexivity.
Qed.

Lemma loadTerrain_single_mesh_witness :
  let v' := snd (loadTerrain online onePart evenDraws (constructed false emptyScene None)) in
  farmMesh v' = Some 0%nat /\
  collides (scene v') 0 = true /\
  terrainMinY v' = -2 - 1.
Proof.
  destruct (loadTerrain_single_mesh online onePart evenDraws
              (constructed false emptyScene None)
              [ standardMaterial "soil" ] (slab "field" (Some 0%nat) (-2) 5) eq_refl)
    as (Hf & _ & _ & Hc & _ & _ & Hy).
  split; [exact Hf|]. split; [exact Hc|exact Hy].
Defined.

(** X4.  Import of a file of two meshes or more: the entity is a node that
    [loadTerrain] creates, named "terrainParent", that has no geometry and
    no collisions of its own; every imported mesh becomes a child of it, has
    collisions enabled and culling off in its material.  The floor is taken
    from the box of the node, which is the point (0,0,0): it is -1 whatever
    the heights of the imported meshes are. *)
Theorem loadTerrain_several_meshes (fetch : nat -> string -> Response)
        (importMesh : string -> string -> ImportOutcome) (Math_random : nat -> Q)
        (v : FarmViewer) (mats : list Material) (m1 m2 : Mesh) (ms : list Mesh) :
  imported fetch importMesh v = ImportResolved mats (m1 :: m2 :: ms) ->
  let v' := snd (loadTerrain fetch importMesh Math_random v) in
  let first := length (meshes (scene v)) in
  let entity := (first + length (m1 :: m2 :: ms))%nat in
  farmMesh v' = Some entity /\
  meshes (scene v') !! entity = Some (emptyMesh "terrainParent") /\
  boundingBoxOf (scene v') entity
    = Some {| minimum := Vector3.Zero; maximum := Vector3.Zero |} /\
  collides (scene v') entity = false /\
  (forall i m, (m1 :: m2 :: ms) !! i = Some m ->
               meshes (scene v') !! (first + i)%nat
                 = Some (set_checkCollisions true (set_parent (Some entity) m)) /\
               culling_off (scene v') (first + i)%nat = true) /\
  terrainMinY v' == -1.
Proof.
  intros E.
  destruct (loadTerrain_composite _ _ Math_random _ _ _ _ _ E) as (s' & -> & Hl & Hm).
  set (news := m1 :: m2 :: ms) in *.
  set (n := length (meshes (scene v))) in *.
  cbn zeta.
  cbn [snd scene set_scene set_terrainMinY set_farmMesh farmMesh terrainMinY].
  assert (Hp : meshes s' !! (n + length news)%nat = Some (emptyMesh "terrainParent")).
  { rewrite Hl. rewrite bool_decide_eq_false_2 by (rewrite elem_of_seq; lia).
    rewrite app_assoc.
    rewrite list_lookup_middle by (rewrite length_app; reflexivity). reflexivity. }
  split; [reflexivity|]. split; [exact Hp|].
  unfold boundingBoxOf, collides. rewrite Hp.
  split; [reflexivity|]. split; [reflexivity|]. split; [|reflexivity].
  intros i m Hi.
  assert (Hlt : (i < length news)%nat) by (eapply lookup_lt_Some; exact Hi).
  assert (Hin : (n + i)%nat ∈ seq n (length news)) by (rewrite elem_of_seq; lia).
  assert (Hmi : (meshes (scene v) ++ news) !! (n + i)%nat = Some m).
  { rewrite lookup_app_r by (unfold n; lia).
    replace (n + i - length (meshes (scene v)))%nat with i by (unfold n; lia). exact Hi. }
  assert (Hnew : meshes s' !! (n + i)%nat
                 = Some (set_checkCollisions true (set_parent (Some (n + length news)%nat) m))).
  { rewrite Hl, (bool_decide_eq_true_2 _ Hin), app_assoc.
    rewrite lookup_app_l by (rewrite length_app; fold n; lia).
    rewrite Hmi. reflexivity. }
  split; [exact Hnew|].
  unfold culling_off. rewrite Hnew. cbn [material set_checkCollisions set_parent].
  destruct (material m) as [k|] eqn:Ek; [|reflexivity].
  rewrite Hm.
  replace (names_material {| meshes := meshes (scene v) ++ news; materials := [] |}
                          (seq n (length news)) k) with true.
  - destruct ((materials (scene v) ++ mats) !! k); reflexivity.
  - symmetry. unfold names_material. apply existsb_exists.
    exists (n + i)%nat. split; [apply list_elem_of_In; exact Hin|].
    cbn [meshes]. rewrite Hmi. cbn. rewrite Ek. apply bool_decide_eq_true_2. reflexivity.
Qed.

Lemma loadTerrain_several_meshes_witness :
  let v' := snd (loadTerrain online threeParts evenDraws
                             (constructed false emptyScene None)) in
  farmMesh v' = Some 3%nat /\ collides (scene v') 3 = false /\ terrainMinY v' == -1.
Proof.
  destruct (loadTerrain_several_meshes online threeParts evenDraws
              (constructed false emptyScene None)
              [ standardMaterial "soil" ]
              (slab "hill" (Some 0%nat) (-10) 0) (slab "pond" None (-3) 2)
              [ slab "barn" (Some 0%nat) 0 5 ] eq_refl)
    as (Hf & _ & _ & Hc & _ & Hy).
  split; [exact Hf|]. split; [exact Hc|exact Hy].
Defined.

(** The flat grid that [CreateGround] builds for the placeholder. *)
Lemma groundVertices_footprint :
  Forall (fun p => -15 <= Vector3.x p /\ Vector3.x p <= 15 /\ Vector3.y p == 0 /\
                   -15 <= Vector3.z p /\ Vector3.z p <= 15)
         (groundVertices 30 30 8).
Proof.
  apply Forall_forall. intros p Hp.
  assert (Hb : forallb (fun p => Qle_bool (-15) (Vector3.x p) && Qle_bool (Vector3.x p) 15
                                 && Qeq_bool (Vector3.y p) 0
                                 && Qle_bool (-15) (Vector3.z p) && Qle_bool (Vector3.z p) 15)
                       (groundVertices 30 30 8) = true) by (vm_compute; reflexivity).
  rewrite forallb_forall in Hb. specialize (Hb p (proj1 (list_elem_of_In _ _) Hp)).
  rewrite !andb_true_iff, !Qle_bool_iff, Qeq_bool_iff in Hb. tauto.
Qed.

(** X5.  The placeholder, for draws of [Math.random] in [0, 1): it is one
    new mesh, the entity, of 81 vertices; the loop over the vertex buffer
    redraws the heights only, so every vertex stays within the 30 by 30
    footprint of the flat grid and has a height in [0, 3).  The mesh has
    collisions enabled; its material is new and keeps back-face culling on;
    the floor [terrainMinY] is not assigned. *)
Theorem createPlaceholderTerrain_patch (Math_random : nat -> Q) (v : FarmViewer) :
  (forall k, 0 <= Math_random k /\ Math_random k < 1) ->
  exists (v' : FarmViewer) (m : Mesh) (k : nat),
    createPlaceholderTerrain Math_random v = (Normal tt, v') /\
    farmMesh v' = Some (length (meshes (scene v))) /\
    meshes (scene v') = meshes (scene v) ++ [m] /\
    length (positions m) = 81%nat /\
    Forall (fun p => -15 <= Vector3.x p /\ Vector3.x p <= 15 /\
                     0 <= Vector3.y p /\ Vector3.y p < 3 /\
                     -15 <= Vector3.z p /\ Vector3.z p <= 15) (positions m) /\
    checkCollisions m = true /\
    material m = Some k /\
    materials (scene v') = materials (scene v) ++ [standardMaterial "placeholderMaterial"] /\
    backFaceCulling <$> materials (scene v') !! k = Some true /\
    terrainMinY v' = terrainMinY v.
Proof.
  intros Hr. rewrite createPlaceholderTerrain_eq.
  eexists _, _, _. split; [reflexivity|].
  cbn [farmMesh scene set_scene set_farmMesh meshes materials terrainMinY
       positions checkCollisions material].
  split; [reflexivity|]. split; [reflexivity|].
  cbn [positions checkCollisions material].
  split; [unfold randomHeights; rewrite length_imap; reflexivity|].
  split; [|split; [reflexivity|split; [reflexivity|split; [reflexivity|split]]]].
  - apply Forall_forall. intros q Hq.
    apply elem_of_lookup_imap_1 in Hq as (i & p & -> & Hp).
    pose proof groundVertices_footprint as Hg.
    rewrite Forall_forall in Hg.
    specialize (Hg p (list_elem_of_lookup_2 _ _ _ Hp)).
    destruct (Hr i) as [H0 H1].
    unfold Vector3.set_y. cbn [Vector3.x Vector3.y Vector3.z].
    repeat split; try tauto; lra.
  - rewrite list_lookup_middle by reflexivity. reflexivity.
  - reflexivity.
Qed.

Lemma createPlaceholderTerrain_patch_witness :
  exists (v' : FarmViewer) (m : Mesh),
    createPlaceholderTerrain evenDraws (constructed false emptyScene None) = (Normal tt, v') /\
    meshes (scene v') = [m] /\
    length (positions m) = 81%nat /\
    terrainMinY v' = -5.
Proof.
  assert (Hr : forall k, 0 <= evenDraws k /\ evenDraws k < 1)
    by (intros k; split; [discriminate|reflexivity]).
  destruct (createPlaceholderTerrain_patch evenDraws (constructed false emptyScene None) Hr)
    as (v' & m & k & E & _ & Hm & Hl & _ & _ & _ & _ & _ & Hy).
  exists v', m. split; [exact E|]. split; [exact Hm|]. split; [exact Hl|exact Hy].
Defined.

(** ** Camera placement *)

(** The box that the engine reports is well formed: its minimum is not
    above its maximum, on any axis. *)
Lemma getBoundingInfo_ordered (m : Mesh) :
  let b := getBoundingInfo m in
  Vector3.x (minimum b) <= Vector3.x (maximum b) /\
  Vector3.y (minimum b) <= Vector3.y (maximum b) /\
  Vector3.z (minimum b) <= Vector3.z (maximum b).
Proof.
  cbn zeta. unfold getBoundingInfo. destruct (positions m) as [|p ps].
  - cbn. repeat split; discriminate.
  - unfold extractMinAndMax.
    assert (H0 : Vector3.x (minimum {| minimum := p; maximum := p |})
                 <= Vector3.x (maximum {| minimum := p; maximum := p |}) /\
                 Vector3.y (minimum {| minimum := p; maximum := p |})
                 <= Vector3.y (maximum {| minimum := p; maximum := p |}) /\
                 Vector3.z (minimum {| minimum := p; maximum := p |})
                 <= Vector3.z (maximum {| minimum := p; maximum := p |}))
      by (cbn; repeat split; apply Qle_refl).
    revert H0. generalize {| minimum := p; maximum := p |} as b.
    induction ps as [|q ps IH]; intros b Hb; [exact Hb|].
    cbn [foldl]. apply IH. cbn [minimum maximum Vector3.minimize Vector3.maximize
                                 Vector3.x Vector3.y Vector3.z].
    unfold Math_min, Math_max.
    repeat split;
      (eapply Qle_trans; [apply Q.le_min_r|apply Q.le_max_r]).
Qed.

(** X6.  [positionCameraForTerrain], for a viewer that has a terrain and a
    camera of either class: the call completes normally and takes the branch
    of [setTarget]; it makes the centre of the box of the entity the target
    of the camera and stores 1.5 times the larger horizontal extent of the
    box as [radius], a number that is never negative.  Nothing but the
    camera changes.  A first-person camera is not moved to a spawn point:
    its x and y stay as they were, and so does its z, but for the [Epsilon]
    that [setTarget] adds when the camera is at the z of the centre; after
    the call its z differs from that of the centre. *)
Theorem positionCameraForTerrain_orbit
        (rotationToward : Vector3.t -> Vector3.t -> Vector3.t)
        (v : FarmViewer) (entity : nat) (m : Mesh) (c : Camera) :
  farmMesh v = Some entity ->
  meshes (scene v) !! entity = Some m ->
  camera v = Some c ->
  let center := boxCenter (getBoundingInfo m) in
  exists (c' : Camera) (r : Q),
    positionCameraForTerrain rotationToward v = (Normal tt, set_camera (Some c') v) /\
    class c' = class c /\
    target c' = center /\
    radius c' = Some r /\
    r == 1.5 * Math_max (Vector3.x (boxSize (getBoundingInfo m)))
                        (Vector3.z (boxSize (getBoundingInfo m))) /\
    0 <= r /\
    (class c = UniversalCamera ->
     Vector3.x (position c') = Vector3.x (position c) /\
     Vector3.y (position c') = Vector3.y (position c) /\
     Vector3.z (position c')
     = (if Qeq_bool (Vector3.z (position c)) (Vector3.z center)
        then Vector3.z (position c) + Epsilon else Vector3.z (position c)) /\
     ~ Vector3.z (position c') == Vector3.z center /\
     rotation c' = rotationToward (position c') center).
Proof.
  intros Hf Hm Hc. cbn zeta.
  unfold positionCameraForTerrain. rewrite bind_this, Hf.
  rewrite (bind_readMesh _ _ _ _ Hm), Hc.
  assert (Ht : has_setTarget c = true) by (unfold has_setTarget; destruct (class c); reflexivity).
  rewrite Ht. unfold assign.
  eexists _, _. split; [reflexivity|].
  unfold setTarget.
  split; [destruct (class c) eqn:Ecl; cbn; rewrite ?Ecl; reflexivity|].
  split; [destruct (class c) eqn:Ecl; reflexivity|].
  split; [reflexivity|]. split; [ring|]. split.
  - destruct (getBoundingInfo_ordered m) as (Hx & _ & _).
    pose proof (Q.le_max_l (Vector3.x (boxSize (getBoundingInfo m)))
                           (Vector3.z (boxSize (getBoundingInfo m)))) as Hmax.
    unfold Math_max. unfold boxSize in *. cbn [Vector3.x Vector3.z] in *. lra.
  - intros Ecl. rewrite Ecl. cbn zeta.
    cbn [position rotation set_radius set_target set_rotation set_position].
    destruct (Qeq_bool (Vector3.z (position c))
                       (Vector3.z (boxCenter (getBoundingInfo m)))) eqn:Ez;
      cbn [Vector3.x Vector3.y Vector3.z].
    + apply Qeq_bool_iff in Ez.
      repeat split. intros H. unfold Epsilon in H. lra.
    + repeat split. intros H. apply Qeq_bool_iff in H. congruence.
Qed.

Lemma positionCameraForTerrain_orbit_witness :
  exists (c' : Camera) (r : Q),
    positionCameraForTerrain (fun _ t => t) walkingViewer
      = (Normal tt, set_camera (Some c') walkingViewer) /\
    Vector3.x (position c') = 0 /\
    Vector3.z (position c') = 20 + Epsilon /\
    radius c' = Some r /\ 0 <= r.
Proof.
  destruct (positionCameraForTerrain_orbit (fun _ t => t) walkingViewer 0
              (slab "field" None (-2) 5) (universalCamera (Vector3.New 0 1.8 20))
              eq_refl eq_refl eq_refl)
    as (c' & r & E & _ & _ & Hr & _ & H0 & Hp).
  destruct (Hp eq_refl) as (Hx & _ & Hz & _).
  exists c', r. split; [exact E|]. split; [exact Hx|]. split; [exact Hz|].
  split; [exact Hr|exact H0].
Defined.

(** X7.  Startup, from the terrain load to the placement of the camera,
    whatever the network, the importer and the random draws do: [init]
    completes normally.  When it starts with a camera, it ends with a
    first-person camera that has the x, 0, and the y, [playerHeight], that
    [setupFirstPersonCamera] gives it, and the z, 10, too, but for the
    [Epsilon] that [setTarget] adds when the centre of the box of the entity
    is at z = 10; the camera is turned toward that centre and has a [radius]
    stored in it.  The branch of [positionCameraForTerrain] that moves the
    camera to a spawn point is not taken.  When [init] starts without a
    camera, the error of [setupFirstPersonCamera] is caught and the terrain
    stays loaded. *)
Theorem init_leaves_walking_camera (fetch : nat -> string -> Response)
        (importMesh : string -> string -> ImportOutcome) (Math_random : nat -> Q)
        (rotationToward : Vector3.t -> Vector3.t -> Vector3.t) (v : FarmViewer) :
  let result := init fetch importMesh Math_random rotationToward v in
  let v' := snd result in
  fst result = Normal tt /\
  exists (entity : nat) (m : Mesh),
    farmMesh v' = Some entity /\
    meshes (scene v') !! entity = Some m /\
    match camera v with
    | None => camera v' = None
    | Some _ =>
        let center := boxCenter (getBoundingInfo m) in
        exists c,
          camera v' = Some c /\
          class c = UniversalCamera /\
          Vector3.x (position c) = 0 /\
          Vector3.y (position c) = playerHeight v /\
          Vector3.z (position c)
          = (if Qeq_bool 10 (Vector3.z center) then 10 + Epsilon else 10) /\
          target c = center /\
          rotation c = rotationToward (position c) center /\
          radius c = Some (Math_max (Vector3.x (boxSize (getBoundingInfo m)))
                                    (Vector3.z (boxSize (getBoundingInfo m))) * 1.5)
    end.
Proof.
  destruct (loadTerrain_shape fetch importMesh Math_random v)
    as (s' & entity & q & E & Hent & _ & _).
  destruct (lookup_lt_is_Some_2 (meshes s') entity) as [m Hm]; [lia|].
  cbn zeta. unfold init, try_catch.
  rewrite (bind_Normal _ _ _ _ _ E).
  unfold setupFirstPersonCamera. rewrite bind_bind, bind_this.
  cbn [camera set_scene set_terrainMinY set_farmMesh].
  destruct (camera v) as [c0|] eqn:Ec.
  - rewrite !bind_bind, !bind_assign.
    unfold positionCameraForTerrain. rewrite bind_this.
    cbn [farmMesh set_camera set_scene set_terrainMinY set_farmMesh].
    erewrite bind_readMesh by exact Hm.
    cbn [camera set_camera playerHeight set_scene set_terrainMinY set_farmMesh].
    assert (Hfirst : setTarget rotationToward Vector3.Zero
                       (universalCamera (Vector3.New 0 (playerHeight v) 10))
                     = set_target Vector3.Zero
                         (set_rotation
                            (rotationToward (Vector3.New 0 (playerHeight v) 10) Vector3.Zero)
                            (universalCamera (Vector3.New 0 (playerHeight v) 10))))
      by reflexivity.
    rewrite Hfirst. set (c1 := set_target _ _).
    assert (Hcl : class c1 = UniversalCamera) by reflexivity.
    assert (Hpos : position c1 = Vector3.New 0 (playerHeight v) 10) by reflexivity.
    clearbody c1.
    unfold has_setTarget, setTarget. rewrite Hcl, Hpos. cbn beta iota zeta. unfold assign.
    cbn [fst snd farmMesh scene camera set_camera set_scene].
    split; [reflexivity|]. exists entity, m.
    split; [reflexivity|]. split; [exact Hm|].
    eexists. split; [reflexivity|].
    cbn [class position rotation target radius set_radius set_target set_rotation
         set_position Vector3.x Vector3.y Vector3.z].
    destruct (Qeq_bool 10 (Vector3.z (boxCenter (getBoundingInfo m))));
      cbn [Vector3.x Vector3.y Vector3.z]; repeat split; exact Hcl.
  - unfold throw, bind, ret. cbn [fst snd farmMesh scene camera set_scene
                                   set_terrainMinY set_farmMesh].
    split; [reflexivity|]. exists entity, m.
    split; [reflexivity|]. split; [exact Hm|exact Ec].
Qed.

(** ** Movement *)

(** The W/A/S/D block and the joystick block together: the movement of a
    frame is [forwardSteps] steps along [forward] and [rightSteps] steps
    along [right], a step being [moveSpeed] long. *)
Lemma horizontalMovement_steps (forward right : Vector3.t) (v : FarmViewer) :
  Vector3.equal
    (horizontalMovement forward right v)
    (Vector3.add (Vector3.scale forward (forwardSteps v * moveSpeed v))
                 (Vector3.scale right (rightSteps v * moveSpeed v))).
Proof.
  unfold horizontalMovement, forwardSteps, rightSteps, pressed, joystickAxis, Vector3.equal.
  destruct (held v "w"); destruct (held v "s"); destruct (held v "a");
    destruct (held v "d");
    destruct (isMobile v && Stick.active (movement (mobileInput v)));
    cbn [Vector3.add Vector3.scale Vector3.Zero Vector3.x Vector3.y Vector3.z];
    repeat split; ring.
Qed.

Lemma lengthSquared_zero (a : Vector3.t) :
  Vector3.lengthSquared a <= 0 ->
  Vector3.x a == 0 /\ Vector3.y a == 0 /\ Vector3.z a == 0.
Proof.
  unfold Vector3.lengthSquared. intros H.
  assert (Hx : 0 <= Vector3.x a * Vector3.x a) by nra.
  assert (Hy : 0 <= Vector3.y a * Vector3.y a) by nra.
  assert (Hz : 0 <= Vector3.z a * Vector3.z a) by nra.
  repeat split; nra.
Qed.

Lemma length_gt_0_false (a : Vector3.t) :
  Vector3.length_gt_0 a = false <-> Vector3.lengthSquared a <= 0.
Proof.
  unfold Vector3.length_gt_0, gt. rewrite negb_false_iff. apply Qle_bool_iff.
Qed.

(** X8.  The horizontal displacement of a frame.  Keys and joystick add up:
    the camera moves, in x and in z, by [moveSpeed] times ("w" minus "s"
    plus the joystick's y) along [forward] plus [moveSpeed] times ("d" minus
    "a" plus the joystick's x) along [right]; the joystick counts only on a
    mobile device while it is dragged.  The frame does not turn the
    camera. *)
Theorem updateMovement_displacement (forward right : Vector3.t) (v : FarmViewer)
        (c : Camera) :
  camera v = Some c ->
  exists c',
    camera (updateMovement forward right v) = Some c' /\
    Vector3.x (position c')
    == Vector3.x (position c)
       + moveSpeed v * (forwardSteps v * Vector3.x forward + rightSteps v * Vector3.x right) /\
    Vector3.z (position c')
    == Vector3.z (position c)
       + moveSpeed v * (forwardSteps v * Vector3.z forward + rightSteps v * Vector3.z right) /\
    rotation c' = rotation c.
Proof.
  intros Hc. unfold updateMovement. rewrite Hc. cbn zeta.
  eexists. split; [reflexivity|].
  destruct (horizontalMovement_steps forward right v) as (Hx & _ & Hz).
  cbn [Vector3.add Vector3.scale Vector3.x Vector3.z] in Hx, Hz.
  set (mv := horizontalMovement forward right v) in *.
  assert (Hv : forall c1 : Camera,
             Vector3.x (position (applyVertical v (verticalMovement v) c1))
             = Vector3.x (position c1) /\
             Vector3.z (position (applyVertical v (verticalMovement v) c1))
             = Vector3.z (position c1) /\
             rotation (applyVertical v (verticalMovement v) c1) = rotation c1).
  { intros c1. unfold applyVertical.
    destruct (nonzero _); [destruct (ge _ _)|]; repeat split. }
  destruct (Hv (applyHorizontal mv c)) as (-> & -> & ->).
  unfold applyHorizontal. destruct (Vector3.length_gt_0 mv) eqn:El.
  - cbn [position set_position rotation Vector3.add Vector3.set_y
         Vector3.x Vector3.y Vector3.z].
    split; [rewrite Hx; ring|]. split; [rewrite Hz; ring|reflexivity].
  - apply length_gt_0_false, lengthSquared_zero in El. destruct El as (Ex & _ & Ez).
    rewrite Ex in Hx. rewrite Ez in Hz.
    split; [lra|]. split; [lra|reflexivity].
Qed.

Lemma updateMovement_displacement_witness :
  exists c',
    camera (updateMovement (Vector3.New 0 0 1) (Vector3.New 1 0 0) allKeys) = Some c' /\
    Vector3.x (position c') == 0 /\ Vector3.z (position c') == 10.
Proof.
  destruct (updateMovement_displacement (Vector3.New 0 0 1) (Vector3.New 1 0 0) allKeys
              (universalCamera (Vector3.New 0 1.8 10)) eq_refl)
    as (c' & Hc & Hx & Hz & _).
  exists c'. split; [exact Hc|]. split.
  - rewrite Hx. vm_compute. reflexivity.
  - rewrite Hz. vm_compute. reflexivity.
Defined.

(** X9.  A frame whose inputs cancel: when "w" is held with "s" and "a" with
    "d" (no net step on either axis) and "q" with "e" (no net vertical
    intent), [updateMovement] leaves the viewer exactly as it was.  The
    floor test is not made in such a frame, so a camera that is below the
    floor line stays below it. *)
Theorem updateMovement_inputs_cancel (forward right : Vector3.t) (v : FarmViewer) :
  forwardSteps v == 0 ->
  rightSteps v == 0 ->
  verticalMovement v == 0 ->
  updateMovement forward right v = v.
Proof.
  intros Hf Hr Hv. unfold updateMovement. destruct (camera v) as [c|] eqn:Ec; [|reflexivity].
  cbn zeta.
  destruct (horizontalMovement_steps forward right v) as (Hx & Hy & Hz).
  cbn [Vector3.add Vector3.scale Vector3.x Vector3.y Vector3.z] in Hx, Hy, Hz.
  rewrite Hf, Hr in Hx, Hy, Hz.
  assert (El : Vector3.length_gt_0 (horizontalMovement forward right v) = false).
  { apply length_gt_0_false. unfold Vector3.lengthSquared. rewrite Hx, Hy, Hz. lra. }
  unfold applyHorizontal. rewrite El.
  assert (En : nonzero (verticalMovement v) = false).
  { unfold nonzero. apply negb_false_iff, Qeq_bool_iff. exact Hv. }
  unfold applyVertical. rewrite En, <- Ec. apply set_camera_same.
Qed.

Lemma updateMovement_inputs_cancel_witness :
  updateMovement (Vector3.New 0 0 1) (Vector3.New 1 0 0) allKeys = allKeys.
Proof.
  apply (updateMovement_inputs_cancel (Vector3.New 0 0 1) (Vector3.New 1 0 0) allKeys);
    vm_compute; reflexivity.
Defined.

(** X10.  A camera below the floor line.  When a frame has a vertical
    intent, up or down, and the candidate height (the height plus the
    intent) is below [terrainMinY + playerHeight], the camera is put on that
    line, above the candidate: holding the key that flies down raises a
    camera that is below the line. *)
Theorem vertical_input_below_floor_snaps (forward right : Vector3.t) (v : FarmViewer)
        (c : Camera) :
  camera v = Some c ->
  ~ verticalMovement v == 0 ->
  Vector3.y (position c) + verticalMovement v < terrainMinY v + playerHeight v ->
  exists c',
    camera (updateMovement forward right v) = Some c' /\
    Vector3.y (position c') == terrainMinY v + playerHeight v /\
    Vector3.y (position c) + verticalMovement v < Vector3.y (position c').
Proof.
  intros Hc Hnz Hlow. unfold updateMovement. rewrite Hc. cbn zeta.
  eexists. split; [reflexivity|].
  pose proof (applyVertical_y v (verticalMovement v)
                (applyHorizontal (horizontalMovement forward right v) c) Hnz) as Hy.
  rewrite applyHorizontal_y in Hy. unfold Math_max in Hy.
  rewrite Q.max_r in Hy by lra.
  split; [exact Hy|]. rewrite Hy. exact Hlow.
Qed.

Lemma vertical_input_below_floor_snaps_witness :
  exists c',
    camera (updateMovement Vector3.Zero Vector3.Zero belowFloor) = Some c' /\
    Vector3.y (position c') == -4.2 /\
    -9 < Vector3.y (position c').
Proof.
  assert (Hnz : ~ verticalMovement belowFloor == 0)
    by (vm_compute; intros H; discriminate H).
  assert (Hlow : Vector3.y (position (universalCamera (Vector3.New 0 (-9) 0)))
                 + verticalMovement belowFloor
                 < terrainMinY belowFloor + playerHeight belowFloor)
    by (vm_compute; reflexivity).
  destruct (vertical_input_below_floor_snaps Vector3.Zero Vector3.Zero belowFloor
              (universalCamera (Vector3.New 0 (-9) 0)) eq_refl Hnz Hlow)
    as (c' & Hc & Hy & _).
  exists c'. split; [exact Hc|]. split.
  - rewrite Hy. vm_compute. reflexivity.
  - rewrite Hy. vm_compute. reflexivity.
Defined.

(** ** Input handlers *)

Ltac handler_cases :=
  unfold onMouseMove, updateMobileCameraRotation, updateMovement, handleStart, handleMove,
    handleEnd, handleCanvasTouchMove, handleCanvasTouchEnd;
  repeat match goal with
         | |- context [match ?x with _ => _ end] => destruct x eqn:?
         end.

Ltac fields_done := first [ reflexivity | assumption | cbn; congruence ].

Lemma run_cons (e : Event) (events : list Event) (v : FarmViewer) :
  run (e :: events) v = run events (dispatch e v).
Proof. reflexivity. Qed.

(** No listener writes the scene, the terrain or the settings. *)
Lemma dispatch_settings (e : Event) (v : FarmViewer) :
  scene (dispatch e v) = scene v /\ farmMesh (dispatch e v) = farmMesh v /\
  terrainMinY (dispatch e v) = terrainMinY v /\ isMobile (dispatch e v) = isMobile v /\
  terrainName (dispatch e v) = terrainName v /\ moveSpeed (dispatch e v) = moveSpeed v /\
  mouseSensitivity (dispatch e v) = mouseSensitivity v /\
  playerHeight (dispatch e v) = playerHeight v /\
  verticalSpeed (dispatch e v) = verticalSpeed v.
Proof. destruct e; cbn [dispatch]; handler_cases; repeat split; fields_done. Qed.

(** Only the two keyboard listeners write [keys]. *)
Lemma dispatch_keys (e : Event) (v : FarmViewer) :
  keys (dispatch e v)
  = match e with
    | KeyDown key => <[key := true]> (keys v)
    | KeyUp key => <[key := false]> (keys v)
    | _ => keys v
    end.
Proof. destruct e; cbn [dispatch]; handler_cases; fields_done. Qed.

(** On a device that is not mobile the touch listeners are not installed. *)
Lemma dispatch_desktop (e : Event) (v : FarmViewer) :
  isMobile v = false ->
  mobileInput (dispatch e v) = mobileInput v /\ lastTouch (dispatch e v) = lastTouch v.
Proof.
  intros H. destruct e; cbn [dispatch]; rewrite ?H; handler_cases; split; fields_done.
Qed.

Lemma updateMovement_rotation (forward right : Vector3.t) (v : FarmViewer) :
  rotation <$> camera (updateMovement forward right v) = rotation <$> camera v.
Proof.
  unfold updateMovement. destruct (camera v) as [c|] eqn:Ec; [|rewrite Ec; reflexivity].
  cbn. unfold applyVertical, applyHorizontal.
  destruct (nonzero _); destruct (Vector3.length_gt_0 _); try destruct (ge _ _); reflexivity.
Qed.

Lemma updateMovement_other (forward right : Vector3.t) (v : FarmViewer) :
  isPointerLocked (updateMovement forward right v) = isPointerLocked v /\
  lastTouch (updateMovement forward right v) = lastTouch v /\
  keys (updateMovement forward right v) = keys v.
Proof. unfold updateMovement. destruct (camera v); repeat split; reflexivity. Qed.

(** A viewer without a camera stays without one. *)
Lemma dispatch_no_camera (e : Event) (v : FarmViewer) :
  camera v = None -> camera (dispatch e v) = None.
Proof.
  intros H. destruct e; cbn [dispatch];
    unfold onMouseMove, updateMobileCameraRotation, updateMovement, handleStart, handleMove,
      handleEnd, handleCanvasTouchMove, handleCanvasTouchEnd;
    rewrite ?H; cbn [camera set_keys set_isPointerLocked]; rewrite ?H;
    repeat match goal with
           | |- context [match ?x with _ => _ end] => destruct x
           end; cbn; rewrite ?H; reflexivity.
Qed.

(** X11.  The state of a key after any sequence of events is what the last
    keyboard event for that key says: held after a keydown, not held after a
    keyup, and as it was when the sequence has no event for the key.  No
    other listener, and no frame, changes the state of a key. *)
Theorem run_keys_last_event (events : list Event) (v : FarmViewer) (k : string) :
  held (run events v) k = default (held v k) (lastKey k events).
Proof.
  revert v. induction events as [|e es IH]; intros v; [reflexivity|].
  rewrite run_cons, IH. cbn [lastKey].
  destruct (lastKey k es) as [b|]; [reflexivity|]. cbn [default].
  unfold held. rewrite dispatch_keys.
  destruct e; try reflexivity.
  - destruct (String.eqb_spec key k) as [->|Hne].
    + rewrite lookup_insert_eq. reflexivity.
    + rewrite lookup_insert_ne by exact Hne. reflexivity.
  - destruct (String.eqb_spec key k) as [->|Hne].
    + rewrite lookup_insert_eq. reflexivity.
    + rewrite lookup_insert_ne by exact Hne. reflexivity.
Qed.

(** X12.  Input never touches the terrain: after any sequence of events the
    scene, the entity, the floor, the kind of device and the speeds,
    sensitivity and player height of the viewer are what they were. *)
Theorem events_never_touch_terrain (events : list Event) (v : FarmViewer) :
  scene (run events v) = scene v /\ farmMesh (run events v) = farmMesh v /\
  terrainMinY (run events v) = terrainMinY v /\ isMobile (run events v) = isMobile v /\
  terrainName (run events v) = terrainName v /\ moveSpeed (run events v) = moveSpeed v /\
  mouseSensitivity (run events v) = mouseSensitivity v /\
  playerHeight (run events v) = playerHeight v /\
  verticalSpeed (run events v) = verticalSpeed v.
Proof.
  revert v. induction events as [|e es IH]; intros v; [repeat split|].
  rewrite run_cons.
  destruct (IH (dispatch e v)) as (-> & -> & -> & -> & -> & -> & -> & -> & ->).
  apply dispatch_settings.
Qed.

(** X13.  On a device that is not mobile, joystick, button and touch events
    do nothing: after any sequence of events the mobile input state and the
    last touch are what they were. *)
Theorem desktop_ignores_touch (events : list Event) (v : FarmViewer) :
  isMobile v = false ->
  mobileInput (run events v) = mobileInput v /\ lastTouch (run events v) = lastTouch v.
Proof.
  revert v. induction events as [|e es IH]; intros v H; [split; reflexivity|].
  rewrite run_cons.
  destruct (dispatch_settings e v) as (_ & _ & _ & Hm & _).
  destruct (IH (dispatch e v)) as (-> & ->); [rewrite Hm; exact H|].
  apply dispatch_desktop. exact H.
Qed.

Lemma desktop_ignores_touch_witness :
  mobileInput (run [ JoystickStart MovementStick; JoystickMove MovementStick 1 0;
                     UpButton true; CanvasTouchMove [(3, 4)];
                     RenderFrame (Vector3.New 0 0 1) (Vector3.New 1 0 0) ] levelViewer)
  = mobileInput levelViewer.
Proof.
  apply (desktop_ignores_touch
           [ JoystickStart MovementStick; JoystickMove MovementStick 1 0;
             UpButton true; CanvasTouchMove [(3, 4)];
             RenderFrame (Vector3.New 0 0 1) (Vector3.New 1 0 0) ] levelViewer).
  reflexivity.
Defined.

(** One event on a desktop whose pointer is not locked. *)
Lemma dispatch_unlocked (e : Event) (v : FarmViewer) :
  isMobile v = false ->
  isPointerLocked v = false ->
  e <> PointerLockChange true ->
  rotation <$> camera (dispatch e v) = rotation <$> camera v /\
  isPointerLocked (dispatch e v) = false.
Proof.
  intros Hm Hl He.
  destruct e as [key|key|locked|mx my|t|t nx ny|t|pressed|pressed|touches| |f r];
    cbn [dispatch]; rewrite ?Hm; try (split; [reflexivity|exact Hl]).
  - destruct locked; [contradiction|]. split; reflexivity.
  - unfold onMouseMove. rewrite Hl.
    destruct (camera v) eqn:Ec; rewrite ?Ec; split; (reflexivity || exact Hl).
  - destruct (updateMovement_inputs f r v) as (Em & _ & _).
    destruct (updateMovement_other f r v) as (El & _ & _).
    unfold updateMobileCameraRotation. rewrite Em, Hm. cbn [negb].
    destruct (camera (updateMovement f r v)) eqn:Ec; rewrite <- ?Ec;
      (split; [apply updateMovement_rotation|rewrite El; exact Hl]).
Qed.

(** X14.  On a desktop the camera turns only under pointer lock: when the
    pointer is not locked and no event locks it, the rotation of the camera
    after any sequence of events (mouse moves and frames included) is what it
    was. *)
Theorem no_pointer_lock_no_turn (events : list Event) (v : FarmViewer) :
  isMobile v = false ->
  isPointerLocked v = false ->
  Forall (fun e => e <> PointerLockChange true) events ->
  rotation <$> camera (run events v) = rotation <$> camera v.
Proof.
  revert v. induction events as [|e es IH]; intros v Hm Hl Hev; [reflexivity|].
  inversion Hev as [|? ? He Hes]; subst.
  destruct (dispatch_unlocked e v Hm Hl He) as (Hr & Hl').
  destruct (dispatch_settings e v) as (_ & _ & _ & Hm' & _).
  rewrite run_cons, IH; [exact Hr|rewrite Hm'; exact Hm|exact Hl'|exact Hes].
Qed.

Lemma no_pointer_lock_no_turn_witness :
  rotation <$> camera (run [ MouseMove 30 40; KeyDown "w";
                             RenderFrame (Vector3.New 0 0 1) (Vector3.New 1 0 0);
                             PointerLockChange false; MouseMove 5 5 ] levelViewer)
  = Some Vector3.Zero.
Proof.
  apply (no_pointer_lock_no_turn
           [ MouseMove 30 40; KeyDown "w";
             RenderFrame (Vector3.New 0 0 1) (Vector3.New 1 0 0);
             PointerLockChange false; MouseMove 5 5 ] levelViewer eq_refl eq_refl).
  repeat constructor; discriminate.
Defined.

(** ** Yaw *)

Lemma onMouseMove_yaw (movementX movementY : Q) (v : FarmViewer) (y : Q) :
  yaw v = Some y ->
  yaw (onMouseMove movementX movementY v)
  = Some (if isPointerLocked v then y + movementX * mouseSensitivity v else y).
Proof.
  unfold yaw, onMouseMove. destruct (camera v) as [c|] eqn:Ec; [|discriminate].
  intros [= <-]. destruct (isPointerLocked v); cbn; rewrite ?Ec; reflexivity.
Qed.

Lemma updateMobileCameraRotation_yaw (v : FarmViewer) (y : Q) :
  yaw v = Some y ->
  yaw (updateMobileCameraRotation v)
  = Some (if isMobile v && Stick.active (look (mobileInput v))
          then y + Stick.x (look (mobileInput v)) * (mouseSensitivity v * 2)
          else y).
Proof.
  unfold yaw, updateMobileCameraRotation.
  destruct (camera v) as [c|] eqn:Ec; [|discriminate].
  intros [= <-]. destruct (isMobile v); cbn; rewrite ?Ec; [|reflexivity].
  destruct (Stick.active (look (mobileInput v))); cbn; rewrite ?Ec; reflexivity.
Qed.

Lemma handleCanvasTouchMove_yaw (touches : list (Q * Q)) (v : FarmViewer) (y : Q) :
  yaw v = Some y ->
  yaw (handleCanvasTouchMove touches v)
  = Some (match touches, lastTouch v with
          | [touch], Some last =>
              if negb (Stick.active (look (mobileInput v)))
              then y + (fst touch - fst last) * mouseSensitivity v * 0.5
              else y
          | _, _ => y
          end).
Proof.
  unfold yaw, handleCanvasTouchMove. destruct (camera v) as [c|] eqn:Ec; [|discriminate].
  intros [= <-].
  destruct touches as [|touch [|t2 ts]]; cbn [fmap option_fmap option_map];
    try (rewrite Ec; reflexivity).
  destruct (Stick.active (look (mobileInput v))); cbn [negb].
  - destruct (lastTouch v); rewrite Ec; reflexivity.
  - destruct (lastTouch v) as [last|]; cbn [camera set_lastTouch set_camera];
      rewrite ?Ec; reflexivity.
Qed.

Lemma updateMovement_yaw (forward right : Vector3.t) (v : FarmViewer) :
  yaw (updateMovement forward right v) = yaw v.
Proof.
  unfold yaw. pose proof (updateMovement_rotation forward right v) as H.
  destruct (camera (updateMovement forward right v)), (camera v);
    cbn in *; congruence.
Qed.

(** One event: the new yaw is the old one plus the delta of the event. *)
Lemma dispatch_yaw (e : Event) (v : FarmViewer) (y : Q) :
  yaw v = Some y ->
  exists y', yaw (dispatch e v) = Some y' /\ y' == y + yawDelta e v.
Proof.
  intros Hy.
  assert (Hsame : y == y + 0) by ring.
  destruct e as [key|key|locked|mx my|t|t nx ny|t|pressed|pressed|touches| |f r];
    cbn [dispatch yawDelta].
  - exists y. split; [exact Hy|exact Hsame].
  - exists y. split; [exact Hy|exact Hsame].
  - exists y. split; [exact Hy|exact Hsame].
  - rewrite (onMouseMove_yaw _ _ _ _ Hy).
    destruct (isPointerLocked v); eexists; (split; [reflexivity|]);
      [reflexivity|exact Hsame].
  - exists y. split; [|exact Hsame]. destruct (isMobile v); exact Hy.
  - exists y. split; [|exact Hsame]. destruct (isMobile v); [|exact Hy].
    unfold handleMove. destruct (Stick.active _); exact Hy.
  - exists y. split; [|exact Hsame]. destruct (isMobile v); exact Hy.
  - exists y. split; [|exact Hsame]. destruct (isMobile v); exact Hy.
  - exists y. split; [|exact Hsame]. destruct (isMobile v); exact Hy.
  - destruct (isMobile v); cbn [andb].
    + rewrite (handleCanvasTouchMove_yaw _ _ _ Hy).
      destruct touches as [|touch [|t2 ts]]; try (exists y; split; [reflexivity|exact Hsame]).
      destruct (lastTouch v) as [last|];
        destruct (Stick.active (look (mobileInput v))); cbn [negb];
        eexists; (split; [reflexivity|]); try exact Hsame. reflexivity.
    + exists y. split; [exact Hy|].
      destruct touches as [|touch [|t2 ts]]; exact Hsame.
  - exists y. split; [|exact Hsame]. destruct (isMobile v); exact Hy.
  - destruct (updateMovement_inputs f r v) as (Em & Ei & Es).
    rewrite (updateMobileCameraRotation_yaw _ y)
      by (rewrite updateMovement_yaw; exact Hy).
    rewrite Em, Ei, Es.
    destruct (isMobile v && Stick.active (look (mobileInput v)));
      eexists; (split; [reflexivity|]); [reflexivity|exact Hsame].
Qed.

(** X15.  The yaw is never clamped: after any sequence of events the yaw of
    the camera is the yaw it had plus the sum of the yaw deltas of the
    events (mouse moves under pointer lock, frames with the look joystick
    dragged, one-finger touch moves), however large the sum is.  A viewer
    without a camera stays without one. *)
Theorem yaw_adds_up (events : list Event) (v : FarmViewer) :
  match yaw v, yaw (run events v) with
  | Some y, Some y' => y' == y + Qsum (yawDeltas events v)
  | None, None => True
  | _, _ => False
  end.
Proof.
  revert v. induction events as [|e es IH]; intros v.
  - cbn [run foldl yawDeltas Qsum foldr]. destruct (yaw v); [ring|exact I].
  - rewrite run_cons. specialize (IH (dispatch e v)).
    destruct (yaw v) as [y|] eqn:Ey.
    + destruct (dispatch_yaw e v y Ey) as (y1 & Ey1 & E1).
      rewrite Ey1 in IH.
      destruct (yaw (run es (dispatch e v))) as [y'|]; [|exact IH].
      cbn [yawDeltas Qsum foldr]. fold (Qsum (yawDeltas es (dispatch e v))).
      rewrite IH, E1. ring.
    + assert (En : yaw (dispatch e v) = None).
      { unfold yaw in *. destruct (camera v) eqn:Ec; [discriminate|].
        rewrite (dispatch_no_camera e v Ec). reflexivity. }
      rewrite En in IH. exact IH.
Qed.

(** ** Joysticks *)

(** One event keeps a released joystick at (0, 0). *)
Lemma dispatch_at_rest (e : Event) (v : FarmViewer) (t : JoystickType) :
  at_rest (stick t (mobileInput v)) -> at_rest (stick t (mobileInput (dispatch e v))).
Proof.
  unfold at_rest. intros H.
  destruct e as [key|key|locked|mx my|t'|t' nx ny|t'|pressed|pressed|touches| |f r];
    cbn [dispatch]; handler_cases; try exact H;
    cbn [mobileInput set_mobileInput set_camera set_lastTouch];
    try exact H;
    destruct t, t'; cbn [stick set_stick set_verticalUp set_verticalDown
                         movement look Stick.active Stick.x Stick.y] in *;
    try exact H; try discriminate; try (intros _; split; reflexivity).
Qed.

(** X16.  A joystick that is not dragged reads (0, 0).  The property holds
    in the state the constructor builds and every listener keeps it:
    [handleStart] switches [active] on, [handleMove] writes a reading only
    while the joystick is dragged, and [handleEnd] writes (0, 0) when it
    switches [active] off. *)
Theorem released_stick_reads_zero (events : list Event) (v : FarmViewer)
        (t : JoystickType) :
  at_rest (stick t (mobileInput v)) ->
  at_rest (stick t (mobileInput (run events v))).
Proof.
  revert v. induction events as [|e es IH]; intros v H; [exact H|].
  rewrite run_cons. apply IH, dispatch_at_rest, H.
Qed.

Lemma released_stick_reads_zero_witness :
  let s := stick MovementStick
                 (mobileInput (run [ JoystickStart MovementStick;
                                     JoystickMove MovementStick (1 # 2) (1 # 4);
                                     JoystickEnd MovementStick;
                                     JoystickMove MovementStick 1 1 ] mobileViewer)) in
  Stick.x s = 0 /\ Stick.y s = 0.
Proof.
  apply (released_stick_reads_zero
           [ JoystickStart MovementStick; JoystickMove MovementStick (1 # 2) (1 # 4);
             JoystickEnd MovementStick; JoystickMove MovementStick 1 1 ]
           mobileViewer MovementStick).
  - intros _. split; reflexivity.
  - reflexivity.
Defined.

(** X17.  The look joystick turns the camera in the sense of the mouse.
    [handleMove] stores the vertical reading negated and
    [updateMobileCameraRotation] subtracts what is stored, so after a drag
    to the normalised reading (nx, ny) a frame adds nx and ny, times twice
    the mouse sensitivity, to the yaw and to the pitch: a finger below the
    centre of the joystick (ny > 0) turns the camera as a mouse moved toward
    the user does.  The pitch is clamped. *)
Theorem look_stick_turns_like_mouse (forward right : Vector3.t) (nx ny : Q)
        (v : FarmViewer) (c : Camera) :
  isMobile v = true ->
  camera v = Some c ->
  exists c',
    camera (run [ JoystickStart LookStick; JoystickMove LookStick nx ny;
                  RenderFrame forward right ] v) = Some c' /\
    Vector3.y (rotation c') == Vector3.y (rotation c) + nx * (2 * mouseSensitivity v) /\
    Vector3.x (rotation c')
    == clampPitch (Vector3.x (rotation c) + ny * (2 * mouseSensitivity v)).
Proof.
  intros Hm Hc.
  cbn [run foldl dispatch]. rewrite Hm.
  unfold handleStart. cbn [stick mobileInput set_mobileInput isMobile]. rewrite Hm.
  unfold handleMove.
  cbn [stick set_stick look mobileInput set_mobileInput Stick.active Stick.x Stick.y
       movement verticalUp verticalDown].
  match goal with |- context [updateMovement forward right ?w] => set (v2 := w) end.
  assert (Hc2 : camera v2 = Some c) by exact Hc.
  assert (Hm2 : isMobile v2 = true) by exact Hm.
  assert (Hl2 : look (mobileInput v2) = Stick.New nx (- ny) true) by reflexivity.
  assert (Hs2 : mouseSensitivity v2 = mouseSensitivity v) by reflexivity.
  assert (Hr : rotation <$> camera (updateMovement forward right v2) = Some (rotation c)).
  { rewrite updateMovement_rotation, Hc2. reflexivity. }
  destruct (updateMovement_inputs forward right v2) as (Em & Ei & Es).
  unfold updateMobileCameraRotation. rewrite Em, Ei, Es, Hm2, Hl2, Hs2.
  clearbody v2.
  destruct (camera (updateMovement forward right v2)) as [c1|] eqn:Ec1; [|discriminate].
  injection Hr as Hr.
  cbn [negb Stick.active Stick.x Stick.y].
  eexists. split; [reflexivity|].
  unfold turn. rewrite Hr.
  cbn [rotation set_rotation Vector3.set_x Vector3.set_y Vector3.x Vector3.y].
  split; [ring|]. apply clampPitch_proper. ring.
Qed.

Lemma look_stick_turns_like_mouse_witness :
  exists c',
    camera (run [ JoystickStart LookStick; JoystickMove LookStick 0 (1 # 2);
                  RenderFrame (Vector3.New 0 0 1) (Vector3.New 1 0 0) ] mobileViewer)
      = Some c' /\
    Vector3.x (rotation c') == 0.002.
Proof.
  destruct (look_stick_turns_like_mouse (Vector3.New 0 0 1) (Vector3.New 1 0 0) 0 (1 # 2)
              mobileViewer (universalCamera (Vector3.New 0 1.8 10)) eq_refl eq_refl)
    as (c' & Hc & _ & Hx).
  exists c'. split; [exact Hc|]. rewrite Hx. vm_compute. reflexivity.
Defined.

(** ** Touch look *)

(** One-finger moves over the canvas, from a recorded touch on. *)
Lemma touch_moves_yaw (touches : list (Q * Q)) (v : FarmViewer) (c : Camera)
      (start : Q * Q) :
  isMobile v = true ->
  Stick.active (look (mobileInput v)) = false ->
  camera v = Some c ->
  lastTouch v = Some start ->
  exists c',
    camera (run ((fun touch => CanvasTouchMove [touch]) <$> touches) v) = Some c' /\
    Vector3.y (rotation c')
    == Vector3.y (rotation c)
       + (fst (default start (last touches)) - fst start) * mouseSensitivity v * 0.5 /\
    lastTouch (run ((fun touch => CanvasTouchMove [touch]) <$> touches) v)
    = Some (default start (last touches)).
Proof.
  revert v c start. induction touches as [|touch ts IH]; intros v c start Hm Ha Hc Hl.
  - exists c. split; [exact Hc|]. split; [cbn [last default]; ring|exact Hl].
  - cbn [fmap list_fmap]. rewrite run_cons. cbn [dispatch]. rewrite Hm.
    unfold handleCanvasTouchMove. rewrite Ha, Hl, Hc. cbn [negb].
    set (c1 := turn _ _ c).
    destruct (IH (set_lastTouch (Some touch) (set_camera (Some c1) v)) c1 touch
                Hm Ha eq_refl eq_refl) as (c' & Hc' & Hy & Hl').
    exists c'. split; [exact Hc'|].
    assert (Hlast : default start (last (touch :: ts)) = default touch (last ts)).
    { rewrite last_cons. destruct (last ts); reflexivity. }
    rewrite Hlast. split; [|exact Hl'].
    rewrite Hy. subst c1. unfold turn.
    cbn [rotation set_rotation Vector3.set_x Vector3.set_y Vector3.y
         mouseSensitivity set_lastTouch set_camera].
    ring.
Qed.

(** X18.  Looking around with one finger on the canvas, while the look
    joystick is not dragged.  The first move after the end of a touch only
    records where the finger is; from then on every move adds the distance
    of the finger from its last place, times half the mouse sensitivity, to
    the yaw.  So the yaw after a drag depends only on where the finger
    started and where it is: bringing the finger back restores the yaw.  *)
Theorem touch_drag_yaw (start : Q * Q) (touches : list (Q * Q)) (v : FarmViewer)
        (c : Camera) :
  isMobile v = true ->
  Stick.active (look (mobileInput v)) = false ->
  camera v = Some c ->
  exists c',
    camera (run (CanvasTouchEnd :: CanvasTouchMove [start]
                   :: ((fun touch => CanvasTouchMove [touch]) <$> touches)) v) = Some c' /\
    Vector3.y (rotation c')
    == Vector3.y (rotation c)
       + (fst (default start (last touches)) - fst start) * mouseSensitivity v * 0.5.
Proof.
  intros Hm Ha Hc. rewrite !run_cons. cbn [dispatch]. rewrite Hm.
  unfold handleCanvasTouchEnd. cbn [isMobile set_lastTouch]. rewrite Hm.
  unfold handleCanvasTouchMove.
  cbn [mobileInput lastTouch set_lastTouch]. rewrite Ha. cbn [negb].
  destruct (touch_moves_yaw touches (set_lastTouch (Some start) (set_lastTouch None v))
              c start Hm Ha Hc eq_refl) as (c' & Hc' & Hy & _).
  exists c'. split; [exact Hc'|exact Hy].
Qed.

Lemma touch_drag_yaw_witness :
  exists c',
    camera (run [ CanvasTouchEnd; CanvasTouchMove [(100, 100)];
                  CanvasTouchMove [(400, 50)]; CanvasTouchMove [(100, 300)] ] mobileViewer)
      = Some c' /\
    Vector3.y (rotation c') == 0.
Proof.
  destruct (touch_drag_yaw (100, 100) [ (400, 50); (100, 300) ] mobileViewer
              (universalCamera (Vector3.New 0 1.8 10)) eq_refl eq_refl eq_refl)
    as (c' & Hc & Hy).
  exists c'. split; [exact Hc|]. rewrite Hy. vm_compute. reflexivity.
Defined.

(** ** The joystick knob and a radius that is not positive *)

Section KnobFacts.

Local Open Scope R_scope.

(** The routine on its far path: a unit vector. *)
Lemma normalizeJoystickInput_far (x y centerX centerY maxDistance : R) :
  maxDistance <> 0 ->
  maxDistance < sqrt ((x - centerX) * (x - centerX) + (y - centerY) * (y - centerY)) ->
  0 < sqrt ((x - centerX) * (x - centerX) + (y - centerY) * (y - centerY)) ->
  exists n,
    Joystick.normalizeJoystickInput x y centerX centerY maxDistance = Some n /\
    Joystick.x n * Joystick.x n + Joystick.y n * Joystick.y n = 1 /\
    Joystick.distance n = maxDistance /\
    Joystick.x n
    = (x - centerX) / sqrt ((x - centerX) * (x - centerX) + (y - centerY) * (y - centerY)) /\
    Joystick.y n
    = (y - centerY) / sqrt ((x - centerX) * (x - centerX) + (y - centerY) * (y - centerY)).
Proof.
  intros Hm Hfar Hpos.
  unfold Joystick.normalizeJoystickInput.
  pose proof (distance_squared (x - centerX) (y - centerY)) as Hsq.
  set (deltaX := x - centerX) in *. set (deltaY := y - centerY) in *.
  set (distance := sqrt (deltaX * deltaX + deltaY * deltaY)) in *.
  assert (Hd : distance <> 0) by Lra.lra.
  destruct (Rlt_dec maxDistance distance) as [_|Hn]; [|contradiction].
  rewrite !div_defined by assumption. cbn.
  eexists. split; [reflexivity|]. cbn.
  split; [|split; [reflexivity|split; field; split; assumption]].
  replace (deltaX / distance * (maxDistance / maxDistance) *
           (deltaX / distance * (maxDistance / maxDistance)) +
           deltaY / distance * (maxDistance / maxDistance) *
           (deltaY / distance * (maxDistance / maxDistance)))
    with ((deltaX * deltaX + deltaY * deltaY) / (distance * distance))
    by (field; split; assumption).
  rewrite <- Hsq. field. assumption.
Qed.

(** The knob for a positive max radius, whatever the centre is. *)
Lemma knobPosition_positive_radius (x y centerX centerY maxDistance : R) :
  0 < maxDistance ->
  exists n,
    Joystick.normalizeJoystickInput x y centerX centerY maxDistance = Some n /\
    let knob := knobPosition centerX centerY maxDistance n in
    (fst knob - centerX) * (fst knob - centerX) + (snd knob - centerY) * (snd knob - centerY)
    <= maxDistance * maxDistance /\
    (sqrt ((x - centerX) * (x - centerX) + (y - centerY) * (y - centerY)) <= maxDistance ->
     fst knob = x /\ snd knob = centerY - (y - centerY)).
Proof.
  intros Hmax.
  pose proof (distance_squared (x - centerX) (y - centerY)) as Hsq.
  assert (Hd0 : 0 <= sqrt ((x - centerX) * (x - centerX) + (y - centerY) * (y - centerY)))
    by apply sqrt_pos.
  assert (Hm : maxDistance <> 0) by Lra.lra.
  destruct (Rlt_dec maxDistance
              (sqrt ((x - centerX) * (x - centerX) + (y - centerY) * (y - centerY))))
    as [Hfar|Hnear].
  - destruct (normalizeJoystickInput_far x y centerX centerY maxDistance Hm Hfar)
      as (n & Hn & Hunit & _); [Lra.lra|].
    exists n. split; [exact Hn|]. unfold knobPosition. cbn [fst snd].
    split; [|intros; Lra.lra].
    replace ((centerX + Joystick.x n * maxDistance - centerX) *
             (centerX + Joystick.x n * maxDistance - centerX) +
             (centerY + - Joystick.y n * maxDistance - centerY) *
             (centerY + - Joystick.y n * maxDistance - centerY))
      with ((Joystick.x n * Joystick.x n + Joystick.y n * Joystick.y n)
            * (maxDistance * maxDistance)) by ring.
    rewrite Hunit. Lra.lra.
  - unfold Joystick.normalizeJoystickInput.
    destruct (Rlt_dec _ _) as [Hfar|_]; [contradiction|].
    rewrite !div_defined by assumption. cbn.
    eexists. split; [reflexivity|]. unfold knobPosition. cbn [fst snd Joystick.x Joystick.y].
    replace (centerX + (x - centerX) / maxDistance * maxDistance) with x
      by (field; assumption).
    replace (centerY + - ((y - centerY) / maxDistance) * maxDistance)
      with (centerY - (y - centerY)) by (field; assumption).
    split; [|intros _; split; reflexivity].
    assert (Hle : sqrt ((x - centerX) * (x - centerX) + (y - centerY) * (y - centerY))
                  <= maxDistance) by Lra.lra.
    replace ((x - centerX) * (x - centerX) + (centerY - (y - centerY) - centerY) *
             (centerY - (y - centerY) - centerY))
      with ((x - centerX) * (x - centerX) + (y - centerY) * (y - centerY)) by ring.
    rewrite <- Hsq.
    apply Rmult_le_compat; assumption.
Qed.

(** The routine for a max radius below 0, whatever the centre is. *)
Lemma normalizeJoystickInput_below_zero (x y centerX centerY maxDistance : R) :
  maxDistance < 0 ->
  Joystick.normalizeJoystickInput centerX centerY centerX centerY maxDistance = None /\
  (x <> centerX \/ y <> centerY ->
   exists n,
     Joystick.normalizeJoystickInput x y centerX centerY maxDistance = Some n /\
     Joystick.magnitude n = 1 /\
     Joystick.distance n = maxDistance /\
     Joystick.distance n < 0).
Proof.
  intros Hneg. split.
  - unfold Joystick.normalizeJoystickInput.
    replace ((centerX - centerX) * (centerX - centerX) +
             (centerY - centerY) * (centerY - centerY)) with 0 by ring.
    rewrite sqrt_0.
    destruct (Rlt_dec maxDistance 0) as [_|Hn]; [|contradiction].
    unfold Joystick.div. destruct (Req_dec_T 0 0) as [_|Hn]; [reflexivity|contradiction].
  - intros Hoff.
    assert (Hpos : 0 < sqrt ((x - centerX) * (x - centerX) + (y - centerY) * (y - centerY))).
    { apply sqrt_lt_R0.
      pose proof (Rle_0_sqr (x - centerX)) as Hx0.
      pose proof (Rle_0_sqr (y - centerY)) as Hy0.
      destruct Hoff as [H|H].
      - assert (Hne : x - centerX <> 0) by Lra.lra.
        pose proof (Rsqr_pos_lt _ Hne). unfold Rsqr in *. Lra.lra.
      - assert (Hne : y - centerY <> 0) by Lra.lra.
        pose proof (Rsqr_pos_lt _ Hne). unfold Rsqr in *. Lra.lra. }
    destruct (normalizeJoystickInput_far x y centerX centerY maxDistance)
      as (n & Hn & Hunit & Hdist & _); [Lra.lra|Lra.lra|exact Hpos|].
    exists n. split; [exact Hn|]. unfold Joystick.magnitude. rewrite Hunit, Hdist.
    split; [apply sqrt_1|]. split; [reflexivity|exact Hneg].
Qed.

(** X19.  The knob of a joystick that is wider than 40 pixels, so that its
    max radius, half the width minus 20, is positive.  [handleMove] places
    the knob at the centre plus the reported x and minus the reported y,
    each times the max radius.  So the knob is never farther from the centre
    than the max radius; while the pointer is within the max radius the knob
    is under the pointer horizontally, and vertically it is at the mirror
    image of the pointer about the centre, [height - y]. *)
Theorem knob_mirrors_finger (width height x y : R) :
  40 < width ->
  let centerX := JoystickElement.centerX width in
  let centerY := JoystickElement.centerY height in
  let maxDistance := JoystickElement.maxDistance width in
  exists n,
    Joystick.normalizeJoystickInput x y centerX centerY maxDistance = Some n /\
    let knob := knobPosition centerX centerY maxDistance n in
    (fst knob - centerX) * (fst knob - centerX) + (snd knob - centerY) * (snd knob - centerY)
    <= maxDistance * maxDistance /\
    (sqrt ((x - centerX) * (x - centerX) + (y - centerY) * (y - centerY)) <= maxDistance ->
     fst knob = x /\ snd knob = height - y).
Proof.
  intros Hw. cbn zeta.
  assert (Hmax : 0 < JoystickElement.maxDistance width)
    by (unfold JoystickElement.maxDistance; Lra.lra).
  destruct (knobPosition_positive_radius x y (JoystickElement.centerX width)
              (JoystickElement.centerY height) (JoystickElement.maxDistance width) Hmax)
    as (n & Hn & Hin & Hnear).
  exists n. split; [exact Hn|]. split; [exact Hin|].
  intros Hle. destruct (Hnear Hle) as (Hx & Hy). split; [exact Hx|].
  rewrite Hy. unfold JoystickElement.centerY. field.
Qed.

Lemma knob_mirrors_finger_witness :
  exists n,
    Joystick.normalizeJoystickInput 60 70 50 50 30 = Some n /\
    knobPosition 50 50 30 n = (60, 100 - 70).
Proof.
  destruct (knob_mirrors_finger 100 100 60 70 ltac:(Lra.lra)) as (n & Hn & _ & Hnear).
  assert (Ex : JoystickElement.centerX 100 = 50)
    by (unfold JoystickElement.centerX; Lra.lra).
  assert (Ey : JoystickElement.centerY 100 = 50)
    by (unfold JoystickElement.centerY; Lra.lra).
  assert (Em : JoystickElement.maxDistance 100 = 30)
    by (unfold JoystickElement.maxDistance; Lra.lra).
  rewrite Ex, Ey, Em in *.
  exists n. split; [exact Hn|].
  assert (Hin : sqrt ((60 - 50) * (60 - 50) + (70 - 50) * (70 - 50)) <= 30).
  { apply Rsqr_incr_0_var; [|Lra.lra]. unfold Rsqr.
    rewrite sqrt_sqrt; Lra.lra. }
  destruct (Hnear Hin) as (Hx & Hy).
  destruct (knobPosition 50 50 30 n) as [kx ky]. cbn [fst snd] in *. subst. reflexivity.
Defined.

(** X20.  A joystick narrower than 40 pixels: [setupJoystick] computes a max
    radius below 0 for it.  Every pointer position is then beyond the max
    radius: a pointer off the centre is reported at full deflection, as a
    vector of length 1, with a reported distance that is negative; for a
    pointer on the centre the routine divides 0 by 0 and reports no real
    vector. *)
Theorem narrow_joystick_saturates (width height x y : R) :
  width < 40 ->
  let centerX := JoystickElement.centerX width in
  let centerY := JoystickElement.centerY height in
  let maxDistance := JoystickElement.maxDistance width in
  Joystick.normalizeJoystickInput centerX centerY centerX centerY maxDistance = None /\
  (x <> centerX \/ y <> centerY ->
   exists n,
     Joystick.normalizeJoystickInput x y centerX centerY maxDistance = Some n /\
     Joystick.magnitude n = 1 /\
     Joystick.distance n = maxDistance /\
     Joystick.distance n < 0).
Proof.
  intros Hw. cbn zeta.
  apply normalizeJoystickInput_below_zero.
  unfold JoystickElement.maxDistance. Lra.lra.
Qed.

Lemma narrow_joystick_saturates_witness :
  Joystick.normalizeJoystickInput 0 0 0 0 (-20) = None /\
  exists n,
    Joystick.normalizeJoystickInput 3 4 0 0 (-20) = Some n /\
    Joystick.magnitude n = 1 /\
    Joystick.distance n = -20.
Proof.
  destruct (narrow_joystick_saturates 0 0 3 4 ltac:(Lra.lra)) as (Hc & Hoff).
  assert (Ex : JoystickElement.centerX 0 = 0)
    by (unfold JoystickElement.centerX; Lra.lra).
  assert (Ey : JoystickElement.centerY 0 = 0)
    by (unfold JoystickElement.centerY; Lra.lra).
  assert (Em : JoystickElement.maxDistance 0 = -20)
    by (unfold JoystickElement.maxDistance; Lra.lra).
  rewrite Ex, Ey, Em in *.
  split; [exact Hc|].
  destruct Hoff as (n & Hn & Hm & Hd & _); [left; Lra.lra|].
  exists n. split; [exact Hn|]. split; [exact Hm|exact Hd].
Defined.

End KnobFacts.
